(** * marblecutter: windowing, buffering and cropping

    A shallow embedding of [marblecutter/__init__.py] (Python 2, with
    [from __future__ import division]) and the properties its design
    document states about it.

    Conventions of the embedding:
    - Python exceptions are values of [exn]; a function that can raise
      returns [Result A].
    - Python floats are kept abstract behind the class [Number]; the
      theorems about control flow and geometry hold for every
      interpretation of the arithmetic.  Two interpretations are given:
      the rationals [Q] (executable, exact) and the reals [R] (exact,
      with [log] and [pi]).  Rounding error, infinities and NaN are not
      modelled.
    - numpy arrays are nested lists; [a[i:j]] is [py_slice].
    - rasterio, numpy, scipy, the [mosaic] module, the transformation
      and the encoder are collaborators: what the source calls on them
      is a field of [RasterAccess] or of [RenderCollaborators], or an
      argument of [render].
    - [_nodata] and [get_source] are called by none of the functions
      below and are left out. *)

From Stdlib Require Import ZArith QArith Qabs Reals Zfloor Machin Lra Lia Ascii.
From stdpp Require Import base option list strings gmap.

#[local] Open Scope string_scope.
#[local] Open Scope Z_scope.

(** ** Python exceptions and the error monad *)

Inductive exn : Type :=
| KeyError (key : string)                (* [EXTENTS[k]] with [k] absent *)
| ZeroDivisionError                      (* [x / 0] *)
| ValueError                             (* [math.log] outside its domain *)
| Exception (msg : string)               (* [raise Exception(msg)] *)
| IOError (what : string).               (* a failure of a collaborator *)

Inductive Result (A : Type) : Type :=
| Ok (a : A)
| Raise (e : exn).
Arguments Ok {A} a.
Arguments Raise {A} e.

#[export] Instance Result_ret : MRet Result := fun A a => Ok a.
#[export] Instance Result_bind : MBind Result := fun A B k r =>
  match r with
  | Ok a => k a
  | Raise e => Raise e
  end.

Definition succeeds {A} (r : Result A) : Prop := exists a, r = Ok a.

(** ** Numbers *)

(** The arithmetic of Python floats, as far as the source uses it.
    [div] is only reached once the divisor has been checked. *)
Class Number (F : Type) : Type := {
  of_Q : Q -> F;
  add : F -> F -> F;
  sub : F -> F -> F;
  mul : F -> F -> F;
  div : F -> F -> F;
  neg : F -> F;
  abs : F -> F;
  ltb : F -> F -> bool;
  eqb : F -> F -> bool;
}.

Declare Scope num_scope.
Delimit Scope num_scope with num.
Notation "x + y" := (add x y) : num_scope.
Notation "x - y" := (sub x y) : num_scope.
Notation "x * y" := (mul x y) : num_scope.
Notation "x / y" := (div x y) : num_scope.
Notation "- x" := (neg x) : num_scope.
Notation "x <? y" := (ltb x y) : num_scope.
Notation "x =? y" := (eqb x y) : num_scope.

Definition of_Z `{Number F} (n : Z) : F := of_Q (inject_Z n).

(** [x / y] on floats raises [ZeroDivisionError] when [y == 0]. *)
Definition truediv `{Number F} (x y : F) : Result F :=
  if (y =? of_Z 0)%num then Raise ZeroDivisionError else Ok (x / y)%num.

(** [x / n] with [n] a Python int. *)
Definition truediv_int `{Number F} (x : F) (n : Z) : Result F :=
  if (n =? 0)%Z then Raise ZeroDivisionError else Ok (x / of_Z n)%num.

(** [max((a, b))]: the first maximal item. *)
Definition max2 `{Number F} (p : F * F) : F :=
  let '(a, b) := p in if (a <? b)%num then b else a.

(** The functions of [math], of the builtins and of the [haversine]
    package that the source calls on floats. *)
Class MathLib (F : Type) `{Number F} : Type := {
  math_pi : F;
  math_log : F -> F;             (* on arguments > 0 *)
  math_ceil : F -> F;
  round : F -> F;                (* Python 2: half away from zero *)
  int : F -> Z;                  (* truncation towards zero *)
  fmod : F -> F -> F;            (* [x % y] *)
  haversine : F * F -> F * F -> F;
}.

(** [math.log(x)] raises [ValueError] unless [x > 0]. *)
Definition log `{MathLib F} (x : F) : Result F :=
  if (of_Z 0 <? x)%num then Ok (math_log x) else Raise ValueError.

(** *** Rationals *)

#[export] Instance Q_Number : Number Q := {|
  of_Q q := q;
  add := Qplus;
  sub := Qminus;
  mul := Qmult;
  div := Qdiv;
  neg := Qopp;
  abs := Qabs;
  ltb x y := negb (Qle_bool y x);
  eqb := Qeq_bool;
|}.

(** *** Reals *)

Definition Rltb (x y : R) : bool := if Rlt_dec x y then true else false.
Definition Reqb (x y : R) : bool := if Req_dec_T x y then true else false.

#[export] Instance R_Number : Number R := {|
  of_Q := Q2R;
  add := Rplus;
  sub := Rminus;
  mul := Rmult;
  div := Rdiv;
  neg := Ropp;
  abs := Rabs;
  ltb := Rltb;
  eqb := Reqb;
|}.

(** [int(x)]: towards zero. *)
Definition Rtrunc (x : R) : Z :=
  if Rlt_dec x 0 then Zceil x else Zfloor x.

(** Python 2 [round(x)]: to the nearest integer, halves away from zero. *)
Definition Rround (x : R) : R :=
  if Rlt_dec x 0 then IZR (Zceil (x - / 2)) else IZR (Zfloor (x + / 2)).

(** The great-circle distance of the [haversine] package, in kilometres:
    points are (latitude, longitude) in degrees. *)
Definition Rhaversine (p1 p2 : R * R) : R :=
  let '(lat1, lng1) := p1 in
  let '(lat2, lng2) := p2 in
  let rad x := (x * PI / 180)%R in
  let lat := (rad lat2 - rad lat1)%R in
  let lng := (rad lng2 - rad lng1)%R in
  let d := (Rsqr (sin (lat / 2))
            + cos (rad lat1) * cos (rad lat2) * Rsqr (sin (lng / 2)))%R in
  (2 * 6371 * asin (sqrt d))%R.

#[export] Instance R_MathLib : MathLib R := {|
  math_pi := PI;
  math_log := ln;
  math_ceil x := IZR (Zceil x);
  round := Rround;
  int := Rtrunc;
  fmod x y := (x - y * IZR (Zfloor (x / y)))%R;
  haversine := Rhaversine;
|}.

(** ** Strings *)

(** [c.upper()] on an ASCII character. *)
Definition ascii_upper (c : ascii) : ascii :=
  let n := nat_of_ascii c in
  if ((97 <=? n)%nat && (n <=? 122)%nat)%bool then ascii_of_nat (n - 32) else c.

(** [s.upper()]. *)
Fixpoint upper (s : string) : string :=
  match s with
  | EmptyString => EmptyString
  | String c s' => String (ascii_upper c) (upper s')
  end.

(** [x in xs] on a list of strings. *)
Definition str_in (x : string) (xs : list string) : bool :=
  existsb (String.eqb x) xs.

(** ** numpy arrays *)

(** [l[start:stop]]: a negative index counts from the end, and both ends
    are clamped to the list. *)
Definition slice_index (n i : Z) : Z :=
  if i <? 0 then Z.max (i + n) 0 else Z.min i n.

Definition py_slice {A} (start stop : Z) (l : list A) : list A :=
  let n := Z.of_nat (length l) in
  let s := slice_index n start in
  let e := slice_index n stop in
  take (Z.to_nat (e - s)) (drop (Z.to_nat s) l).

Definition array2 (A : Type) : Type := list (list A).
Definition array3 (A : Type) : Type := list (list (list A)).

(** [data.shape] of a 3-D array, read off the nesting (the inner extents
    of an array with no outer item read as 0). *)
Definition shape3 {A} (data : array3 A) : Z * Z * Z :=
  (Z.of_nat (length data),
   Z.of_nat (length (hd [] data)),
   Z.of_nat (length (hd [] (hd [] data)))).

(** Every item along every axis has the extent that [shape3] reports. *)
Definition rectangular3 {A} (data : array3 A) (n0 n1 n2 : Z) : Prop :=
  Z.of_nat (length data) = n0 /\
  Forall (fun plane =>
    Z.of_nat (length plane) = n1 /\
    Forall (fun row => Z.of_nat (length row) = n2) plane) data.

Definition rectangular2 {A} (data : array2 A) (n0 n1 : Z) : Prop :=
  Z.of_nat (length data) = n0 /\
  Forall (fun row => Z.of_nat (length row) = n1) data.

(** [data[a:b, c:d, :]] *)
Definition slice_rows_cols {A} (a b c d : Z) (data : array3 A) : array3 A :=
  map (py_slice c d) (py_slice a b data).

(** [data[:, a:b, c:d]] *)
Definition slice_bands_rows_cols {A} (a b c d : Z) (data : array3 A) : array3 A :=
  map (fun band => map (py_slice c d) (py_slice a b band)) data.

Definition map2 {A B} (f : A -> B) : array2 A -> array2 B := map (map f).
Definition map3 {A B} (f : A -> B) : array3 A -> array3 B := map (map2 f).

(** [np.arange(0, n)] *)
Definition arange `{Number F} (n : Z) : list F :=
  map (fun i => of_Z (Z.of_nat i)) (seq 0 (Z.to_nat n)).

Inductive Dtype : Type :=
| uint8 | int16 | uint16 | int32 | float32 | float64.

(** [np.issubdtype(dtype, float)] *)
Definition issubdtype_float (dt : Dtype) : bool :=
  match dt with
  | float32 | float64 => true
  | _ => false
  end.

(** A masked array pairs every cell with its mask flag ([true]: masked). *)
Definition MaskedArray3 (F : Type) : Type := array3 (F * bool).
Definition MaskedArray2 (F : Type) : Type := array2 (F * bool).

(** ** rasterio: affine transforms and windows

    [Affine], [transform.from_bounds], [Window] and [windows.bounds] as
    rasterio 1.0 defines them. *)

(** Bounds are (left, bottom, right, top). *)
Abbreviation Bounds F := (F * F * F * F)%type (only parsing).

Section Rasterio.
Context `{Number F}.
#[local] Open Scope num_scope.

Record Affine : Type := mkAffine { a : F; b : F; c : F; d : F; e : F; f : F }.

(** [Affine.scale(sx, sy)] *)
Definition Affine_scale (sx sy : F) : Affine :=
  mkAffine sx (of_Z 0) (of_Z 0) (of_Z 0) sy (of_Z 0).

(** [t * u] *)
Definition Affine_mul (t u : Affine) : Affine :=
  mkAffine (a t * a u + b t * d u) (a t * b u + b t * e u)
           (a t * c u + b t * f u + c t)
           (d t * a u + e t * d u) (d t * b u + e t * e u)
           (d t * c u + e t * f u + f t).

(** [t * (x, y)] *)
Definition Affine_apply (t : Affine) (p : F * F) : F * F :=
  let '(x, y) := p in (x * a t + y * b t + c t, x * d t + y * e t + f t).

(** [transform.from_bounds(west, south, east, north, width, height)]:
    [Affine.translation(west, north) *
     Affine.scale((east - west) / width, (south - north) / height)],
    whose product with a translation on the left is written out. *)
Definition from_bounds (bounds : Bounds F) (width height : Z) : Result Affine :=
  let '(west, south, east, north) := bounds in
  sx ← truediv_int (east - west) width;
  sy ← truediv_int (south - north) height;
  Ok (mkAffine sx (of_Z 0) west (of_Z 0) sy north).

(** [Window(col_off, row_off, num_cols, num_rows)]; as a tuple it is
    [((row_off, row_off + num_rows), (col_off, col_off + num_cols))]. *)
Record Window : Type := mkWindow {
  col_off : F; row_off : F; num_cols : F; num_rows : F
}.

Definition toranges (w : Window) : (F * F) * (F * F) :=
  ((row_off w, row_off w + num_rows w), (col_off w, col_off w + num_cols w)).

(** [Window.from_ranges(rows, cols)] *)
Definition Window_from_ranges (rows cols : F * F) : Window :=
  mkWindow (fst cols) (fst rows) (snd cols - fst cols) (snd rows - fst rows).

(** [windows.bounds(window, transform)] *)
Definition windows_bounds (w : Window) (t : Affine) : Bounds F :=
  let row_min := row_off w in
  let row_max := row_min + num_rows w in
  let col_min := col_off w in
  let col_max := col_min + num_cols w in
  let '(left_, bottom) := Affine_apply t (col_min, row_max) in
  let '(right_, top) := Affine_apply t (col_max, row_min) in
  (left_, bottom, right_, top).
End Rasterio.

Arguments Affine F : clear implicits.
Arguments Window F : clear implicits.

(** [rasterio.crs.CRS]: what the source observes of a CRS is its text
    [str(crs)] (the key into [EXTENTS]), [crs.is_geographic] and [==],
    which compares by code. *)
Record CRS : Type := mkCRS { str : string; is_geographic : bool }.

Definition CRS_eqb (c1 c2 : CRS) : bool := String.eqb (str c1) (str c2).

(** ** marblecutter *)

Definition WEB_MERCATOR_CRS : CRS := mkCRS "+init=epsg:3857" false.
Definition WGS84_CRS : CRS := mkCRS "+init=epsg:4326" true.

Definition _isimage (data_format : string) : bool :=
  str_in (upper data_format) ["RGB"; "RGBA"].

Section Marblecutter.
Context `{MathLib F}.
#[local] Open Scope num_scope.

Definition EXTENTS : gmap string (Bounds F) :=
  <[ str WEB_MERCATOR_CRS :=
       (of_Q (-20037508342789244 # 1000000000),
        of_Q (-20037508342789244 # 1000000000),
        of_Q (20037508342789244 # 1000000000),
        of_Q (20037508342789244 # 1000000000)) ]>
  (<[ str WGS84_CRS := (of_Z (-180), of_Z (-90), of_Z 180, of_Z 90) ]> ∅).

(** [np.ma.masked_values(data, nodata)] on a float array masks the cells
    with [|x - nodata| <= atol + rtol * |nodata|] (rtol 1e-5, atol 1e-8);
    [np.ma.masked_equal(data, nodata)] masks the cells equal to it. *)
Definition masked_values_cell (nodata x : F) : F * bool :=
  (x, negb (of_Q (1 # 100000000) + of_Q (1 # 100000) * abs nodata
            <? abs (x - nodata))).

Definition masked_equal_cell (nodata x : F) : F * bool :=
  (x, x =? nodata).

Definition _mask_cell (dtype : Dtype) (nodata x : F) : F * bool :=
  if issubdtype_float dtype then masked_values_cell nodata x
  else masked_equal_cell nodata x.

(** [_mask(data, nodata)] for a 2-D and for a 3-D array; [dtype] is
    [data.dtype]. *)
Definition _mask2 (dtype : Dtype) (data : array2 F) (nodata : F) : MaskedArray2 F :=
  map2 (_mask_cell dtype nodata) data.

Definition _mask3 (dtype : Dtype) (data : array3 F) (nodata : F) : MaskedArray3 F :=
  map3 (_mask_cell dtype nodata) data.

(** [np.ma.masked_array(data, mask=False)] *)
Definition unmasked2 (data : array2 F) : MaskedArray2 F :=
  map2 (fun x => (x, false)) data.
Definition unmasked3 (data : array3 F) : MaskedArray3 F :=
  map3 (fun x => (x, false)) data.

(** [crop((data, (bounds, data_crs)), data_format, offsets)] *)
Definition crop {A} (pc : array3 A * (Bounds F * CRS)) (data_format : string)
    (offsets : Z * Z * Z * Z)
    : Result (array3 A * (option (Bounds F) * option CRS)) :=
  let '(data, (bounds, data_crs)) := pc in
  let '(left_, right_, bottom, top) := offsets in
  if _isimage data_format then
    let '(width, height, _) := shape3 data in
    let data := slice_rows_cols top (height - bottom) left_ (width - right_) data in
    Ok (data, (None, None))
  else
    let '(_, height, width) := shape3 data in
    t ← from_bounds bounds width height;
    let data :=
      slice_bands_rows_cols top (height - bottom) left_ (width - right_) data in
    let '(_, shape_1, shape_2) := shape3 data in
    let cropped_window :=
      mkWindow (of_Z left_) (of_Z top) (of_Z shape_1) (of_Z shape_2) in
    let cropped_bounds := windows_bounds cropped_window t in
    Ok (data, (Some cropped_bounds, Some data_crs)).

(** [get_extent(crs)] *)
Definition get_extent (crs : CRS) : Result (Bounds F) :=
  match EXTENTS !! str crs with
  | Some extent => Ok extent
  | None => Raise (KeyError (str crs))
  end.

(** [get_resolution((bounds, crs), (height, width))] *)
Definition get_resolution (bc : Bounds F * CRS) (shape : Z * Z) : Result (F * F) :=
  let '(bounds, crs) := bc in
  let '(height, width) := shape in
  t ← from_bounds bounds width height;
  Ok (abs (a t), abs (e t)).

(** [get_resolution_in_meters((bounds, crs), (height, width))] *)
Definition get_resolution_in_meters (bc : Bounds F * CRS) (shape : Z * Z)
    : Result (F * F) :=
  let '(bounds, crs) := bc in
  let '(height, width) := shape in
  let '(bounds_0, bounds_1, bounds_2, bounds_3) := bounds in
  if is_geographic crs then
    let left_ := (bounds_0, (bounds_1 + bounds_3) / of_Z 2) in
    let right_ := (bounds_2, (bounds_1 + bounds_3) / of_Z 2) in
    let top := ((bounds_0 + bounds_2) / of_Z 2, bounds_3) in
    let bottom := ((bounds_0 + bounds_2) / of_Z 2, bounds_1) in
    xres ← truediv_int (haversine left_ right_ * of_Z 1000) width;
    yres ← truediv_int (haversine top bottom * of_Z 1000) height;
    Ok (xres, yres)
  else
    get_resolution (bounds, crs) (height, width).

(** [get_zoom(resolution, op=round)] *)
Definition get_zoom (resolution : F) (op : F -> F) : Result Z :=
  q ← truediv (of_Z 2 * math_pi * of_Z 6378137) (resolution * of_Z 256);
  l ← log q;
  l2 ← log (of_Z 2);
  z ← truediv l l2;
  Ok (int (op z)).
End Marblecutter.

(** ** The raster-access capability

    What [read_window] calls on rasterio, numpy and scipy.  A call that
    can fail returns a [Result]. *)
Class RasterAccess (F : Type) `{Number F} : Type := {
  Source : Type;                       (* an open dataset *)
  VRT : Type;                          (* a [WarpedVRT] *)
  Spline : Type;                       (* a fitted [RectBivariateSpline] *)
  src_bounds : Source -> Bounds F;
  src_crs : Source -> CRS;
  src_height : Source -> Z;
  src_width : Source -> Z;
    src_nodata : Source -> option F;
  src_name : Source -> string;
  src_transform : Source -> Affine F;
  (** [WarpedVRT(src, src_nodata, dst_crs, dst_width, dst_height,
      dst_transform, resampling=Resampling.lanczos)] *)
  WarpedVRT : Source -> option F -> CRS -> F -> F -> Affine F -> Result VRT;
  vrt_count : VRT -> Z;
  vrt_nodata : VRT -> option F;
  vrt_transform : VRT -> Affine F;
  vrt_dtype : VRT -> Dtype;
  vrt_close : VRT -> VRT;              (* leaving the [with] block *)
  (** [vrt.window(left, bottom, right, top)] *)
  vrt_window : VRT -> Bounds F -> Result (Window F);
  (** [vrt.read(1, window=window)] *)
  vrt_read_band : VRT -> Z -> Window F -> Result (array2 F);
  (** [vrt.read(out_shape=shape, window=window)] *)
  vrt_read : VRT -> Z * Z * Z -> Window F -> Result (array3 F);
  (** [windows.from_bounds] on unpacked bounds, with [transform=t] and [boundless=True] *)
  windows_from_bounds : Bounds F -> Affine F -> Result (Window F);
  (** [np.linspace(start, stop, num=num)] *)
  linspace : F -> F -> F -> list F;
  (** [RectBivariateSpline(y, x, data)] and [interp(ys, xs)] *)
  RectBivariateSpline : list F -> list F -> MaskedArray2 F -> Result Spline;
  Spline_call : Spline -> list F -> list F -> Result (array2 F);
  (** the value cast of [astype(np.float32)] *)
  to_float32 : F -> F;
  (** [rasterio.open(path, crs=crs)] *)
  rasterio_open : string -> CRS -> Result Source;
  (** [WarpedVRT(mask_src, src_crs, src_transform, dst_crs, dst_width,
      dst_height, dst_transform)] *)
  WarpedVRT_mask :
    Source -> CRS -> Affine F -> CRS -> F -> F -> Affine F -> Result VRT;
  (** [mask_vrt.read(out_shape=shape, window=window)], as 8-bit cells *)
  mask_read : VRT -> Z * Z * Z -> Window F -> Result (array3 Z);
}.

(** [~mask] on 8-bit cells, read as a boolean mask. *)
Definition invert_cell (m : Z) : bool := negb (Z.land (Z.lnot m) 255 =? 0).

(** [data.mask = mask]: the mask must have the shape of the data. *)
Fixpoint set_mask1 {A} (row : list (A * bool)) (mask : list bool)
    : Result (list (A * bool)) :=
  match row, mask with
  | [], [] => Ok []
  | (x, _) :: row', m :: mask' =>
      r ← set_mask1 row' mask'; Ok ((x, m) :: r)
  | _, _ => Raise ValueError
  end.

Fixpoint set_mask2 {A} (data : array2 (A * bool)) (mask : array2 bool)
    : Result (array2 (A * bool)) :=
  match data, mask with
  | [], [] => Ok []
  | row :: data', m :: mask' =>
      r ← set_mask1 row m; rs ← set_mask2 data' mask'; Ok (r :: rs)
  | _, _ => Raise ValueError
  end.

Fixpoint set_mask3 {A} (data : array3 (A * bool)) (mask : array3 bool)
    : Result (array3 (A * bool)) :=
  match data, mask with
  | [], [] => Ok []
  | band :: data', m :: mask' =>
      r ← set_mask2 band m; rs ← set_mask3 data' mask'; Ok (r :: rs)
  | _, _ => Raise ValueError
  end.

(** [try: body except Exception: pass], for a body that assigns [data]. *)
Definition try_except_pass {A} (data : A) (body : Result A) : A :=
  match body with
  | Ok data' => data'
  | Raise _ => data
  end.

Section ReadWindow.
Context `{MathLib F} `{!RasterAccess F}.
#[local] Open Scope num_scope.

(** [2 ** zoom] *)
Definition pow2 (zoom : Z) : F := of_Q (Qpower 2 zoom).

(** [data.astype(np.float32)] on a masked array *)
Definition astype_float32 (data : MaskedArray3 F) : MaskedArray3 F :=
  map3 (fun cell => (to_float32 (fst cell), snd cell)) data.

(** Lines 105-139 of [read_window]: the extent lookup and the
    destination grid [(dst_width, dst_height, dst_transform)]. *)
Definition destination_grid (src : Source) (bc : Bounds F * CRS) (shape : Z * Z)
    : Result (F * F * Affine F) :=
  let '(bounds, bounds_crs) := bc in
  let '(height, width) := shape in
  extent ← match get_extent bounds_crs with
           | Ok extent => Ok extent
           | Raise (KeyError _) =>
               Raise (Exception ("Unsupported CRS: " +:+ str bounds_crs))
           | Raise e => Raise e
           end;
  let '(extent_0, extent_1, extent_2, extent_3) := extent in
  if CRS_eqb bounds_crs WEB_MERCATOR_CRS then
    res_m ← get_resolution_in_meters
              (src_bounds src, src_crs src) (src_height src, src_width src);
    zoom ← get_zoom (max2 res_m) math_ceil;
    let dst_width := pow2 zoom * of_Z 256 in
    let dst_height := dst_width in
    res_0 ← truediv (extent_2 - extent_0) dst_width;
    res_1 ← truediv (extent_3 - extent_1) dst_height;
    let dst_transform :=
      mkAffine res_0 (of_Z 0) extent_0 (of_Z 0) (- res_1) extent_3 in
    Ok (dst_width, dst_height, dst_transform)
  else
    resolution ← get_resolution (bounds, bounds_crs) (height, width);
    let extent_width := extent_2 - extent_0 in
    let extent_height := extent_3 - extent_1 in
    inv_0 ← truediv (of_Z 1) (fst resolution);
    let dst_width := inv_0 * extent_width in
    inv_1 ← truediv (of_Z 1) (snd resolution);
    let dst_height := inv_1 * extent_height in
    let '(dst_width, dst_height, resolution) :=
      if ((width `mod` 2 =? 1) || (height `mod` 2 =? 1))%Z
      then (dst_width * of_Z 2, dst_height * of_Z 2,
            (fst resolution / of_Z 2, snd resolution / of_Z 2))
      else (dst_width, dst_height, resolution) in
    let dst_transform :=
      mkAffine (fst resolution) (of_Z 0) extent_0
               (of_Z 0) (- snd resolution) extent_3 in
    Ok (dst_width, dst_height, dst_transform).

(** Lines 175-219: the sample coordinates [(x, y)] of the buffered read. *)
Definition sample_coordinates (vrt : VRT) (bounds : Bounds F) (shape : Z * Z)
    (scale_factor pixel buffer : F * F) (window : Window F)
    : Result (list F * list F) :=
  let '(height, width) := shape in
  let buffer_pixels := of_Z 2 in
  if negb (fmod (fst scale_factor) (of_Z 1) =? of_Z 0)
     || negb (fmod (snd scale_factor) (of_Z 1) =? of_Z 0) then
    let scaled_transform :=
      Affine_mul (vrt_transform vrt)
                 (Affine_scale (fst scale_factor) (snd scale_factor)) in
    target_window ← windows_from_bounds bounds scaled_transform;
    let '(r, c) := toranges target_window in
    let target_window :=
      ((fst r - buffer_pixels * snd scale_factor,
        snd r + buffer_pixels * snd scale_factor),
       (fst c - buffer_pixels * fst scale_factor,
        snd c + buffer_pixels * fst scale_factor)) in
    let data_bounds := windows_bounds window (vrt_transform vrt) in
    data_window ← windows_from_bounds data_bounds scaled_transform;
    let '(tr, tc) := target_window in
    let '(dr, dc) := toranges data_window in
    let minx := fst dr - fst tr in
    let miny := fst dc - fst tc in
    let maxx := of_Z width + (snd dr - snd tr) in
    let maxy := of_Z height + (snd dc - snd tc) in
    Ok (linspace (minx - fst buffer) (maxx - fst buffer) (num_cols window),
        linspace (miny - snd buffer) (maxy - snd buffer) (num_rows window))
  else
    Ok (linspace (- fst buffer)
                 (num_cols window * fst pixel - fst buffer) (num_cols window),
        linspace (- snd buffer)
                 (num_rows window * snd pixel - snd buffer) (num_rows window)).

(** Lines 150-253: the body of the [with WarpedVRT(...) as vrt] block. *)
Definition read_data (vrt : VRT) (bounds : Bounds F) (shape : Z * Z)
    : Result (MaskedArray3 F) :=
  let '(height, width) := shape in
  dst_window ← vrt_window vrt bounds;
  sf_0 ← truediv_int (num_cols dst_window) width;
  sf_1 ← truediv_int (num_rows dst_window) height;
  let scale_factor := (sf_0, sf_1) in
  if ((vrt_count vrt =? 1)%Z && ((sf_0 <? of_Z 1) || (sf_1 <? of_Z 1)))%bool then
    let buffer_pixels := of_Z 2 in
    pixel_0 ← truediv (of_Z 1) sf_0;
    pixel_1 ← truediv (of_Z 1) sf_1;
    let pixel := (pixel_0, pixel_1) in
    let buffer := (buffer_pixels * pixel_0, buffer_pixels * pixel_1) in
    let '(r, c) := toranges dst_window in
    let window :=
      Window_from_ranges (fst r - buffer_pixels, snd r + buffer_pixels)
                         (fst c - buffer_pixels, snd c + buffer_pixels) in
    '(x, y) ← sample_coordinates vrt bounds (height, width)
                scale_factor pixel buffer window;
    data ← vrt_read_band vrt 1 window;
    let data :=
      match vrt_nodata vrt with
      | Some nodata => _mask2 (vrt_dtype vrt) data nodata
      | None => unmasked2 data
      end in
    interp ← RectBivariateSpline y x data;
    data ← Spline_call interp (arange height) (arange width);
    let data := [data] in
    let data :=
      match vrt_nodata vrt with
      | Some nodata => _mask3 float64 data nodata
      | None => unmasked3 data
      end in
    Ok (astype_float32 data)
  else
    data ← vrt_read vrt (vrt_count vrt, height, width) dst_window;
    let data :=
      match vrt_nodata vrt with
      | Some nodata => _mask3 (vrt_dtype vrt) data nodata
      | None => unmasked3 data
      end in
    Ok (astype_float32 data).

(** Lines 257-274: the body of the [try] block; [vrt] is closed by now. *)
Definition read_mask (src : Source) (vrt : VRT) (bc : Bounds F * CRS)
    (shape : Z * Z) (dst : F * F * Affine F) (data : MaskedArray3 F)
    : Result (MaskedArray3 F) :=
  let '(bounds, bounds_crs) := bc in
  let '(height, width) := shape in
  let '(dst_width, dst_height, dst_transform) := dst in
  mask_src ← rasterio_open (src_name src +:+ ".msk") (src_crs src);
  mask_vrt ← WarpedVRT_mask mask_src (src_crs src) (src_transform src)
               bounds_crs dst_width dst_height dst_transform;
  dst_window ← vrt_window (vrt_close vrt) bounds;
  mask ← mask_read mask_vrt (vrt_count vrt, height, width) dst_window;
  set_mask3 data (map3 invert_cell mask).

(** [read_window(src, (bounds, bounds_crs), (height, width))] *)
Definition read_window (src : Source) (bc : Bounds F * CRS) (shape : Z * Z)
    : Result (MaskedArray3 F * (Bounds F * CRS)) :=
  let '(bounds, bounds_crs) := bc in
  dst ← destination_grid src bc shape;
  let '(dst_width, dst_height, dst_transform) := dst in
  vrt ← WarpedVRT src (src_nodata src) bounds_crs
          dst_width dst_height dst_transform;
  data ← read_data vrt bounds shape;
  let data := try_except_pass data (read_mask src vrt bc shape dst data) in
  Ok (data, (bounds, bounds_crs)).
End ReadWindow.

(** ** The render orchestrator *)

(** A transformation is a callable that may carry a [buffer] attribute. *)
Record Transformation (F : Type) `{Number F} : Type := mkTransformation {
  transformation_buffer : option Z;      (* [None]: no such attribute *)
  transformation_call :
    MaskedArray3 F * (Bounds F * CRS) -> Result (MaskedArray3 F * string);
}.
Arguments mkTransformation {F _} _ _.
Arguments transformation_buffer {F _} _.
Arguments transformation_call {F _} _ _.

(** The collaborators of [render]: the functions of the [mosaic] module
    it calls (that module is not part of the source at hand and is taken
    as a parameter) and the encoder. *)
Class RenderCollaborators (F : Type) `{Number F} : Type := {
  Sources : Type;
  Encoded : Type;
  (** [mosaic.get_sources((bounds, bounds_crs), resolution_m)] *)
  mosaic_get_sources : Bounds F * CRS -> F * F -> Result Sources;
  (** [mosaic.composite(sources, (bounds, bounds_crs), shape, target_crs)] *)
  mosaic_composite :
    Sources -> Bounds F * CRS -> Z * Z -> CRS ->
    Result (MaskedArray3 F * (Bounds F * CRS));
}.

(** The local variables [bounds], [shape], [left], [right], [bottom] and
    [top] of [render]. *)
Record Request (F : Type) : Type := mkRequest {
  req_bounds : F * F * F * F;
  req_shape : Z * Z;
  req_left : Z;
  req_right : Z;
  req_bottom : Z;
  req_top : Z;
}.
Arguments mkRequest {F} _ _ _ _ _ _.
Arguments req_bounds {F} _.
Arguments req_shape {F} _.
Arguments req_left {F} _.
Arguments req_right {F} _.
Arguments req_bottom {F} _.
Arguments req_top {F} _.

Section Render.
Context `{MathLib F} `{!RenderCollaborators F}.
#[local] Open Scope num_scope.

(** Lines 297-302: [(effective_buffer, offset)]. *)
Definition buffers (transformation : option (Transformation F)) (buffer : Z)
    : Z * Z :=
  match transformation with
  | Some t =>
      match transformation_buffer t with
      | Some t_buffer => ((buffer + t_buffer)%Z, t_buffer)
      | None => (buffer, 0%Z)
      end
  | None => (buffer, 0%Z)
  end.

(** Line 307: the item of the comprehension for index [i] and bound [p]. *)
Definition buffer_bound (effective_buffer : Z) (resolution : F * F)
    (i : Z) (p : F) : F :=
  let resolution_i :=
    if (i `mod` 2 =? 0)%Z then fst resolution else snd resolution in
  if (i <? 2)%Z then p - of_Z effective_buffer * resolution_i
  else p + of_Z effective_buffer * resolution_i.

(** Lines 305-311: apply the buffer. *)
Definition apply_buffer (bounds : Bounds F) (shape : Z * Z)
    (resolution : F * F) (effective_buffer offset : Z) : Request F :=
  let '(bounds_0, bounds_1, bounds_2, bounds_3) := bounds in
  let shape :=
    ((fst shape + 2 * effective_buffer)%Z, (snd shape + 2 * effective_buffer)%Z) in
  let bounds :=
    (buffer_bound effective_buffer resolution 0 bounds_0,
     buffer_bound effective_buffer resolution 1 bounds_1,
     buffer_bound effective_buffer resolution 2 bounds_2,
     buffer_bound effective_buffer resolution 3 bounds_3) in
  mkRequest bounds shape offset offset offset offset.

(** Lines 316-334: the four tests against the extent, in source order. *)
Definition clamp_left (extent bounds_orig : Bounds F) (effective_buffer : Z)
    (q : Request F) : Request F :=
  let '(bounds_0, bounds_1, bounds_2, bounds_3) := req_bounds q in
  if bounds_0 <? extent.1.1.1 then
    mkRequest (bounds_orig.1.1.1, bounds_1, bounds_2, bounds_3)
              (fst (req_shape q), (snd (req_shape q) - effective_buffer)%Z)
              0 (req_right q) (req_bottom q) (req_top q)
  else q.

Definition clamp_right (extent bounds_orig : Bounds F) (effective_buffer : Z)
    (q : Request F) : Request F :=
  let '(bounds_0, bounds_1, bounds_2, bounds_3) := req_bounds q in
  if extent.1.2 <? bounds_2 then
    mkRequest (bounds_0, bounds_1, bounds_orig.1.2, bounds_3)
              (fst (req_shape q), (snd (req_shape q) - effective_buffer)%Z)
              (req_left q) 0 (req_bottom q) (req_top q)
  else q.

Definition clamp_bottom (extent bounds_orig : Bounds F) (effective_buffer : Z)
    (q : Request F) : Request F :=
  let '(bounds_0, bounds_1, bounds_2, bounds_3) := req_bounds q in
  if bounds_1 <? extent.1.1.2 then
    mkRequest (bounds_0, bounds_orig.1.1.2, bounds_2, bounds_3)
              ((fst (req_shape q) - effective_buffer)%Z, snd (req_shape q))
              (req_left q) (req_right q) 0 (req_top q)
  else q.

Definition clamp_top (extent bounds_orig : Bounds F) (effective_buffer : Z)
    (q : Request F) : Request F :=
  let '(bounds_0, bounds_1, bounds_2, bounds_3) := req_bounds q in
  if extent.2 <? bounds_3 then
    mkRequest (bounds_0, bounds_1, bounds_2, bounds_orig.2)
              ((fst (req_shape q) - effective_buffer)%Z, snd (req_shape q))
              (req_left q) (req_right q) (req_bottom q) 0
  else q.

Definition clamp_to_extent (extent bounds_orig : Bounds F)
    (effective_buffer : Z) (q : Request F) : Request F :=
  clamp_top extent bounds_orig effective_buffer
    (clamp_bottom extent bounds_orig effective_buffer
      (clamp_right extent bounds_orig effective_buffer
        (clamp_left extent bounds_orig effective_buffer q))).

(** Lines 294-334: the request handed to the mosaic, with the
    meter-resolution of the unbuffered request. *)
Definition render_request (bc : Bounds F * CRS) (shape : Z * Z)
    (transformation : option (Transformation F)) (buffer : Z)
    : Result (Request F * (F * F)) :=
  let '(bounds, bounds_crs) := bc in
  resolution ← get_resolution (bounds, bounds_crs) shape;
  resolution_m ← get_resolution_in_meters (bounds, bounds_crs) shape;
  let '(effective_buffer, offset) := buffers transformation buffer in
  let bounds_orig := bounds in
  let q := apply_buffer bounds shape resolution effective_buffer offset in
  extent ← get_extent bounds_crs;
  Ok (clamp_to_extent extent bounds_orig effective_buffer q, resolution_m).

(** [render((bounds, bounds_crs), shape, target_crs, format,
    transformation=None, buffer=0)] *)
Definition render (bc : Bounds F * CRS) (shape : Z * Z) (target_crs : CRS)
    (format :
       MaskedArray3 F * (option (Bounds F) * option CRS) -> string ->
       Result Encoded)
    (transformation : option (Transformation F)) (buffer : Z)
    : Result Encoded :=
  let '(_, bounds_crs) := bc in
  '(q, resolution_m) ← render_request bc shape transformation buffer;
  let effective_buffer := fst (buffers transformation buffer) in
  sources ← mosaic_get_sources (req_bounds q, bounds_crs) resolution_m;
  '(data, (data_bounds, data_crs)) ←
    mosaic_composite sources (req_bounds q, bounds_crs) (req_shape q) target_crs;
  let data_format := "raw" in
  '(data, data_format) ←
    match transformation with
    | Some t => transformation_call t (data, (data_bounds, data_crs))
    | None => Ok (data, data_format)
    end;
  pc ← (if (buffer <? effective_buffer)%Z
        then crop (data, (data_bounds, data_crs)) data_format
               (req_left q, req_right q, req_bottom q, req_top q)
        else Ok (data, (Some data_bounds, Some data_crs)));
  format pc data_format.
End Render.

(** ** The design document's wording of the render geometry

    The definitions of this section follow the words of the design
    document, to be compared with [apply_buffer] and [clamp_to_extent],
    which follow the source. *)

Section RenderGeometryWords.

Context `{MathLib F}.
#[local] Open Scope num_scope.

(** The buffer a transformation declares, 0 if there is no
    transformation or it declares none. *)
Definition declared_buffer (transformation : option (Transformation F)) : Z :=
  match transformation with
  | Some t => default 0%Z (transformation_buffer t)
  | None => 0%Z
  end.

(** The request expanded as the design document words it: the shape
    grows by twice the buffer per axis, every bound moves outward by
    the buffer times the resolution of its axis; the four crop offsets
    start at [offset]. *)
Definition expanded_request (bounds : Bounds F) (shape : Z * Z)
    (resolution : F * F) (effective_buffer offset : Z) : Request F :=
  let '(l, b, r, t) := bounds in
  let '(height, width) := shape in
  let '(xres, yres) := resolution in
  mkRequest (l - of_Z effective_buffer * xres, b - of_Z effective_buffer * yres,
             r + of_Z effective_buffer * xres, t + of_Z effective_buffer * yres)
            ((height + 2 * effective_buffer)%Z, (width + 2 * effective_buffer)%Z)
            offset offset offset offset.

(** Does the buffered request [q] pass the extent on an edge? *)
Definition exceeds_left (extent : Bounds F) (q : Request F) : bool :=
  (req_bounds q).1.1.1 <? extent.1.1.1.
Definition exceeds_bottom (extent : Bounds F) (q : Request F) : bool :=
  (req_bounds q).1.1.2 <? extent.1.1.2.
Definition exceeds_right (extent : Bounds F) (q : Request F) : bool :=
  extent.1.2 <? (req_bounds q).1.2.
Definition exceeds_top (extent : Bounds F) (q : Request F) : bool :=
  extent.2 <? (req_bounds q).2.

Definition shrink (exceeds : bool) (effective_buffer : Z) : Z :=
  if exceeds then effective_buffer else 0%Z.

(** Extent clamping as the design document words it, edge by edge: an
    edge of the buffered request [q] that passes the extent gets its
    unbuffered bound back, takes [effective_buffer] off the dimension
    of its axis, and has crop offset 0; another edge keeps what [q]
    has. *)
Definition clamped_per_edge (extent bounds_orig : Bounds F)
    (effective_buffer : Z) (q : Request F) : Request F :=
  let xl := exceeds_left extent q in
  let xr := exceeds_right extent q in
  let xb := exceeds_bottom extent q in
  let xt := exceeds_top extent q in
  mkRequest
    (if xl then bounds_orig.1.1.1 else (req_bounds q).1.1.1,
     if xb then bounds_orig.1.1.2 else (req_bounds q).1.1.2,
     if xr then bounds_orig.1.2 else (req_bounds q).1.2,
     if xt then bounds_orig.2 else (req_bounds q).2)
    ((fst (req_shape q) - shrink xb effective_buffer
        - shrink xt effective_buffer)%Z,
     (snd (req_shape q) - shrink xl effective_buffer
        - shrink xr effective_buffer)%Z)
    (if xl then 0%Z else req_left q)
    (if xr then 0%Z else req_right q)
    (if xb then 0%Z else req_bottom q)
    (if xt then 0%Z else req_top q).

(** The transformation step of [render]: the data and its format after
    the optional transformation. *)
Definition transformed (transformation : option (Transformation F))
    (composite : MaskedArray3 F * (Bounds F * CRS))
    : Result (MaskedArray3 F * string) :=
  match transformation with
  | Some t => transformation_call t composite
  | None => Ok (fst composite, "raw")
  end.
End RenderGeometryWords.

(** ** The design document's wording of the crop

    Rows [top : height - bottom] and columns [left : width - right] of a
    channel-last array of shape (height, width, channels). *)
Definition crop_image_words {A} (data : array3 A) (offsets : Z * Z * Z * Z)
    : array3 A :=
  let '(left_, right_, bottom, top) := offsets in
  let '(height, width, _) := shape3 data in
  slice_rows_cols top (height - bottom) left_ (width - right_) data.

(** The same rows and columns of a band-first array of shape
    (bands, height, width). *)
Definition crop_raw_words {A} (data : array3 A) (offsets : Z * Z * Z * Z)
    : array3 A :=
  let '(left_, right_, bottom, top) := offsets in
  let '(_, height, width) := shape3 data in
  slice_bands_rows_cols top (height - bottom) left_ (width - right_) data.

(** ** What the raster-access capability promises about shapes

    A read with [out_shape] returns an array of that shape; a spline
    evaluated on [ys] and [xs] returns one value per pair. *)
Class RasterAccessContract (F : Type) `{RasterAccess F} : Prop := {
  vrt_read_shape : forall vrt n h w window data,
    vrt_read vrt (n, h, w) window = Ok data -> rectangular3 data n h w;
  Spline_call_shape : forall interp ys xs data,
    Spline_call interp ys xs = Ok data ->
    rectangular2 data (Z.of_nat (length ys)) (Z.of_nat (length xs));
}.

(** ** The design document's wording of the zoom

    zoom = rounding(log2(2 pi R_earth / (resolution * 256))), as an
    integer, with R_earth = 6378137 m. *)
Definition log2 (x : R) : R := (ln x / ln 2)%R.

Definition zoom_words (resolution : R) (rounding : R -> R) : Z :=
  Rtrunc (rounding (log2 (2 * PI * 6378137 / (resolution * 256)))%R).

(** The resolution of zoom 0: the equator over one tile of 256 pixels. *)
Definition reference_resolution : R := (2 * PI * 6378137 / 256)%R.

(** ** Collaborators for running the model

    A raster whose every cell is 1 and whose mask file is present or not,
    a mosaic that composites one band of zeros of the shape asked for, and
    two transformations that declare a buffer of 4: one hands the data on
    as it is, one turns it into a channel-last image of three channels.
    The encoder of the examples, [encode_shape], reports the shape and the
    format of what it is given. *)

Definition full2 {A} (n0 n1 : Z) (x : A) : array2 A :=
  repeat (repeat x (Z.to_nat n1)) (Z.to_nat n0).

Definition full3 {A} (n0 n1 n2 : Z) (x : A) : array3 A :=
  repeat (full2 n1 n2 x) (Z.to_nat n0).

Definition constant_raster (count : Z) (with_mask : bool) : RasterAccess R := {|
  Source := unit;
  VRT := unit;
  Spline := unit;
  src_bounds _ := (0, 0, 1, 1)%R;
  src_crs _ := WGS84_CRS;
  src_height _ := 16;
  src_width _ := 16;
  src_nodata _ := None;
  src_name _ := "constant.tif";
  src_transform _ := mkAffine (/ 16)%R 0%R 0%R 0%R (- / 16)%R 1%R;
  WarpedVRT _ _ _ _ _ _ := Ok tt;
  vrt_count _ := count;
  vrt_nodata _ := None;
  vrt_transform _ := mkAffine (/ 16)%R 0%R 0%R 0%R (- / 16)%R 1%R;
  vrt_dtype _ := float32;
  vrt_close vrt := vrt;
  vrt_window _ _ := Ok (mkWindow 0%R 0%R 16%R 16%R);
  vrt_read_band _ _ _ := Ok (full2 20 20 1%R);
  vrt_read _ shape _ :=
    if (0 <=? shape.1.1) && (0 <=? shape.1.2) && (0 <=? shape.2)
    then Ok (full3 shape.1.1 shape.1.2 shape.2 1%R)
    else Raise ValueError;
  windows_from_bounds _ _ := Ok (mkWindow 0%R 0%R 16%R 16%R);
  linspace _ _ _ := [];
  RectBivariateSpline _ _ _ := Ok tt;
  Spline_call _ ys xs :=
    Ok (full2 (Z.of_nat (length ys)) (Z.of_nat (length xs)) 1%R);
  to_float32 x := x;
  rasterio_open _ _ :=
    if with_mask then Ok tt else Raise (IOError "No such file or directory");
  WarpedVRT_mask _ _ _ _ _ _ _ := Ok tt;
  mask_read _ shape _ :=
    if (0 <=? shape.1.1) && (0 <=? shape.1.2) && (0 <=? shape.2)
    then Ok (full3 shape.1.1 shape.1.2 shape.2 255)
    else Raise ValueError;
|}.

Definition zero_mosaic : RenderCollaborators R := {|
  Sources := unit;
  Encoded := (Z * Z * Z) * string;
  mosaic_get_sources _ _ := Ok tt;
  mosaic_composite _ bc shape target_crs :=
    Ok (full3 1 (fst shape) (snd shape) (0%R, false), (fst bc, target_crs));
|}.

Definition encode_shape
    (pc : MaskedArray3 R * (option (Bounds R) * option CRS))
    (data_format : string) : Result ((Z * Z * Z) * string) :=
  Ok (shape3 (fst pc), data_format).

Definition padded_identity : Transformation R :=
  mkTransformation (Some 4) (fun pc => Ok (fst pc, "raw")).

(** From (bands, height, width) to (height, width, 3). *)
Definition padded_rgb : Transformation R :=
  mkTransformation (Some 4)
    (fun pc =>
       let '(_, height, width) := shape3 (fst pc) in
       Ok (full3 height width 3 (0%R, false), "RGB")).

(** The constant raster of one band, seen through a window that has no
    columns. *)
Definition empty_window_raster : RasterAccess R := {|
  Source := unit;
  VRT := unit;
  Spline := unit;
  src_bounds _ := (0, 0, 1, 1)%R;
  src_crs _ := WGS84_CRS;
  src_height _ := 16;
  src_width _ := 16;
  src_nodata _ := None;
  src_name _ := "constant.tif";
  src_transform _ := mkAffine (/ 16)%R 0%R 0%R 0%R (- / 16)%R 1%R;
  WarpedVRT _ _ _ _ _ _ := Ok tt;
  vrt_count _ := 1;
  vrt_nodata _ := None;
  vrt_transform _ := mkAffine (/ 16)%R 0%R 0%R 0%R (- / 16)%R 1%R;
  vrt_dtype _ := float32;
  vrt_close vrt := vrt;
  vrt_window _ _ := Ok (mkWindow 0%R 0%R 0%R 16%R);
  vrt_read_band _ _ _ := Ok (full2 20 4 1%R);
  vrt_read _ shape _ := Ok (full3 shape.1.1 shape.1.2 shape.2 1%R);
  windows_from_bounds _ _ := Ok (mkWindow 0%R 0%R 0%R 16%R);
  linspace _ _ _ := [];
  RectBivariateSpline _ _ _ := Ok tt;
  Spline_call _ ys xs :=
    Ok (full2 (Z.of_nat (length ys)) (Z.of_nat (length xs)) 1%R);
  to_float32 x := x;
  rasterio_open _ _ := Raise (IOError "No such file or directory");
  WarpedVRT_mask _ _ _ _ _ _ _ := Ok tt;
  mask_read _ shape _ := Ok (full3 shape.1.1 shape.1.2 shape.2 255);
|}.

(** * Properties *)

(** ** Comparisons and divisions on the reals *)

Lemma R_ltb_true (x y : R) : (x < y)%R -> (x <? y)%num = true.
Proof. intros Hlt. simpl. unfold Rltb. by destruct (Rlt_dec x y). Qed.

Lemma R_ltb_false (x y : R) : (y <= x)%R -> (x <? y)%num = false.
Proof. intros Hle. simpl. unfold Rltb. destruct (Rlt_dec x y); [lra|done]. Qed.

Lemma R_eqb_true (x y : R) : x = y -> (x =? y)%num = true.
Proof. intros Heq. simpl. unfold Reqb. by destruct (Req_dec_T x y). Qed.

Lemma R_eqb_false (x y : R) : x <> y -> (x =? y)%num = false.
Proof. intros Hne. simpl. unfold Reqb. by destruct (Req_dec_T x y). Qed.

Lemma R_of_Z (n : Z) : of_Z (F:=R) n = IZR n.
Proof. unfold of_Z. simpl. unfold Q2R. simpl. lra. Qed.

Lemma R_truediv (x y : R) : y <> 0%R -> truediv x y = Ok (x / y)%R.
Proof.
  intros Hy. unfold truediv. rewrite R_eqb_false; [done|].
  by rewrite R_of_Z.
Qed.

(** Decide a comparison of closed real expressions. *)
Ltac R_closed :=
  repeat match goal with hyp : _ |- _ => clear hyp end;
  rewrite ?R_of_Z; cbn [of_Q add sub mul div neg abs R_Number];
  unfold Q2R, inject_Z; simpl; try split_Rabs; lra.

(** Read the operations of [Number] and [MathLib] on the reals. *)
Ltac R_ops :=
  rewrite ?R_of_Z;
  cbn [of_Q add sub mul div neg abs R_Number math_pi math_log R_MathLib].



(** ** Divisions and resolutions *)

Section ResolutionFacts.
Context `{MathLib F}.
#[local] Open Scope num_scope.

Lemma truediv_int_ok (x : F) (n : Z) :
  n <> 0%Z -> truediv_int x n = Ok (x / of_Z n).
Proof. intros Hn. unfold truediv_int. apply Z.eqb_neq in Hn. by rewrite Hn. Qed.

Lemma truediv_int_zero (x : F) : truediv_int x 0 = Raise ZeroDivisionError.
Proof. reflexivity. Qed.

Lemma get_resolution_ok (l b r t : F) crs (h w : Z) :
  h <> 0%Z -> w <> 0%Z ->
  get_resolution ((l, b, r, t), crs) (h, w)
  = Ok (abs ((r - l) / of_Z w), abs ((b - t) / of_Z h)).
Proof.
  intros Hh Hw. unfold get_resolution, from_bounds.
  rewrite !truediv_int_ok by done. reflexivity.
Qed.

Lemma get_resolution_in_meters_ok (bounds : Bounds F) crs (h w : Z) :
  h <> 0%Z -> w <> 0%Z ->
  succeeds (get_resolution_in_meters (bounds, crs) (h, w)).
Proof.
  intros Hh Hw. destruct bounds as [[[l b] r] t].
  unfold get_resolution_in_meters, succeeds.
  destruct (is_geographic crs).
  - rewrite !truediv_int_ok by done. eexists; reflexivity.
  - rewrite get_resolution_ok by done. eexists; reflexivity.
Qed.
Lemma get_resolution_zero (bounds : Bounds F) crs (h w : Z) :
  h = 0%Z \/ w = 0%Z ->
  get_resolution (bounds, crs) (h, w) = Raise ZeroDivisionError.
Proof.
  intros Hz. destruct bounds as [[[l b] r] t].
  unfold get_resolution, from_bounds, truediv_int.
  destruct (Z.eqb_spec w 0) as [->|Hw]; [reflexivity|].
  destruct Hz as [->| ->]; [reflexivity|done].
Qed.

(** C8: [get_resolution_in_meters] raises [ZeroDivisionError] (the
    invalid-shape failure) whenever the height or the width is zero, for
    a geographic and for a projected CRS alike; for a projected CRS it
    is [get_resolution], and with nonzero dimensions both return the same
    pair of resolutions. *)
Theorem get_resolution_in_meters_shape (bounds : Bounds F) crs (h w : Z) :
  (h = 0%Z \/ w = 0%Z ->
   get_resolution_in_meters (bounds, crs) (h, w) = Raise ZeroDivisionError)
  /\ (is_geographic crs = false ->
      get_resolution_in_meters (bounds, crs) (h, w)
      = get_resolution (bounds, crs) (h, w))
  /\ (is_geographic crs = false -> h <> 0%Z -> w <> 0%Z ->
      exists resolution,
        get_resolution (bounds, crs) (h, w) = Ok resolution
        /\ get_resolution_in_meters (bounds, crs) (h, w) = Ok resolution).
Proof.
  assert (Hproj : is_geographic crs = false ->
            get_resolution_in_meters (bounds, crs) (h, w)
            = get_resolution (bounds, crs) (h, w)).
  { intros Hgeo. destruct bounds as [[[l b] r] t].
    unfold get_resolution_in_meters. by rewrite Hgeo. }
  split; [|split].
  - intros Hz. destruct (is_geographic crs) eqn:Hgeo.
    + destruct bounds as [[[l b] r] t].
      unfold get_resolution_in_meters, truediv_int. rewrite Hgeo.
      destruct (Z.eqb_spec w 0) as [->|Hw]; [reflexivity|].
      destruct Hz as [->| ->]; [reflexivity|done].
    + rewrite Hproj by done. by apply get_resolution_zero.
  - exact Hproj.
  - intros Hgeo Hh Hw. destruct bounds as [[[l b] r] t].
    eexists. split; [by apply get_resolution_ok|].
    rewrite Hproj by done. by apply get_resolution_ok.
Qed.
End ResolutionFacts.

Lemma get_resolution_in_meters_shape_witness :
  get_resolution_in_meters (F:=R) ((0, 0, 1, 1)%R, WGS84_CRS) (0, 256)
  = Raise ZeroDivisionError
  /\ get_resolution_in_meters (F:=R) ((0, 0, 1, 1)%R, WEB_MERCATOR_CRS) (256, 256)
     = get_resolution ((0, 0, 1, 1)%R, WEB_MERCATOR_CRS) (256, 256).
Proof.
  split.
  - refine (proj1 (get_resolution_in_meters_shape (F:=R) _ _ _ _) _).
    left. reflexivity.
  - refine (proj1 (proj2 (get_resolution_in_meters_shape (F:=R) _ _ _ _)) _).
    reflexivity.
Defined.

(** ** The buffer geometry of [render] *)

(** ** Slices and the crop utility *)

Lemma py_slice_all {A} (l : list A) :
  py_slice 0 (Z.of_nat (length l)) l = l.
Proof.
  unfold py_slice, slice_index.
  replace (0 <? 0) with false by reflexivity.
  replace (Z.of_nat (length l) <? 0) with false by (symmetry; apply Z.ltb_ge; lia).
  rewrite Z.min_id, Z.min_l by lia.
  rewrite Z.sub_0_r, Nat2Z.id. simpl. by rewrite firstn_all.
Qed.

Lemma py_slice_length {A} (start stop : Z) (l : list A) :
  0 <= start -> start <= stop -> stop <= Z.of_nat (length l) ->
  Z.of_nat (length (py_slice start stop l)) = stop - start.
Proof.
  intros H0 H1 H2. unfold py_slice, slice_index.
  replace (start <? 0) with false by (symmetry; apply Z.ltb_ge; lia).
  replace (stop <? 0) with false by (symmetry; apply Z.ltb_ge; lia).
  rewrite !Z.min_l by lia.
  rewrite length_take, length_drop. lia.
Qed.

Lemma shape3_rectangular {A} (data : array3 A) n height width :
  rectangular3 data n height width -> 0 < n -> 0 < height ->
  shape3 data = (n, height, width).
Proof.
  intros [Hn Hrect] Hpos Hhpos. unfold shape3.
  destruct data as [|band data]; [simpl in Hn; lia|].
  apply Forall_cons in Hrect as [[Hh Hrows] _]. simpl.
  destruct band as [|row band]; [simpl in Hh; lia|].
  apply Forall_cons in Hrows as [Hw _]. simpl in *.
  by rewrite Hn, Hh, Hw.
Qed.

Lemma py_slice_Forall {A} (P : A -> Prop) (start stop : Z) (l : list A) :
  Forall P l -> Forall P (py_slice start stop l).
Proof. intros Hall. unfold py_slice. by apply Forall_take, Forall_drop. Qed.

(** Cutting [k] cells off both ends of the two spatial axes of band-first
    data of (n, h + 2k, w + 2k) cells leaves (n, h, w) cells. *)
Lemma crop_raw_margin {A} (data : array3 A) n h w k :
  0 < n -> 0 < h -> 0 <= w -> 0 <= k ->
  rectangular3 data n (h + 2 * k) (w + 2 * k) ->
  rectangular3 (crop_raw_words data (k, k, k, k)) n h w.
Proof.
  intros Hn Hh Hw Hk Hrect. unfold crop_raw_words.
  rewrite (shape3_rectangular data n (h + 2 * k) (w + 2 * k)) by (done || lia).
  destruct Hrect as [Hlen Hbands]. unfold slice_bands_rows_cols.
  split; [by rewrite length_map|].
  apply Forall_map. eapply Forall_impl; [exact Hbands|].
  intros band [Hrows Hcols]. cbv beta. split.
  - rewrite length_map, py_slice_length; lia.
  - apply Forall_map, py_slice_Forall.
    eapply Forall_impl; [exact Hcols|].
    intros row Hrow. cbv beta in Hrow |- *. rewrite py_slice_length; lia.
Qed.

Section CropFacts.
Context `{Number F}.

(** On band-first data the crop slices the two spatial axes as the
    design document says and leaves the band axis alone. *)
Lemma crop_raw_slices {A} (data : array3 A) (bounds : Bounds F) crs
    data_format offsets :
  _isimage data_format = false ->
  (shape3 data).1.2 <> 0 -> (shape3 data).2 <> 0 ->
  exists cropped_bounds,
    crop (data, (bounds, crs)) data_format offsets
    = Ok (crop_raw_words data offsets, (Some cropped_bounds, Some crs)).
Proof.
  intros Hfmt Hh Hw. destruct offsets as [[[l r] b] t].
  destruct bounds as [[[west south] east] north].
  unfold crop, crop_raw_words. rewrite Hfmt.
  destruct (shape3 data) as [[n h] w] eqn:Hs. simpl in Hh, Hw.
  unfold from_bounds, truediv_int.
  apply Z.eqb_neq in Hh, Hw. rewrite Hh, Hw. simpl.
  eexists. reflexivity.
Qed.

(** On channel-last data the crop returns no bounds; it slices as the
    design document says when the array is as high as it is wide. *)
Lemma crop_image_square {A} (data : array3 A) (bounds : Bounds F) crs
    data_format offsets :
  _isimage data_format = true ->
  (shape3 data).1.1 = (shape3 data).1.2 ->
  crop (data, (bounds, crs)) data_format offsets
  = Ok (crop_image_words data offsets, (None, None)).
Proof.
  intros Hfmt Hsq. destruct offsets as [[[l r] b] t].
  unfold crop, crop_image_words. rewrite Hfmt.
  destruct (shape3 data) as [[n h] w]. simpl in Hsq. by subst.
Qed.

(** With no offsets the slices of band-first data keep every cell. *)
Lemma crop_raw_zero_offsets {A} (data : array3 A) n height width :
  rectangular3 data n height width -> 0 < n -> 0 < height ->
  crop_raw_words data (0, 0, 0, 0) = data.
Proof.
  intros Hrect Hpos Hhpos. unfold crop_raw_words.
  rewrite (shape3_rectangular data n height width) by done.
  destruct Hrect as [_ Hrect]. unfold slice_bands_rows_cols.
  rewrite !Z.sub_0_r.
  induction Hrect as [|band data [Hh Hrows] _ IH]; [done|].
  simpl. rewrite IH. f_equal.
  rewrite <- Hh, py_slice_all.
  clear Hh. induction Hrows as [|row band Hw _ IHb]; [done|].
  simpl. by rewrite IHb, <- Hw, py_slice_all.
Qed.
End CropFacts.

(** C5: on channel-last data [crop] reads the shape as (width, height,
    channels), so the rows are cut at the width and the columns at the
    height.  On an image of 2 rows by 3 columns with a left offset of 1 it
    returns one column where rows [0:2] and columns [1:3] have two. *)
Theorem crop_image_swapped_axes :
  let data : array3 Z := [[[1]; [2]; [3]]; [[4]; [5]; [6]]] in
  let pc := (data, ((0, 0, 3, 2)%Q, WEB_MERCATOR_CRS)) in
  shape3 data = (2, 3, 1)
  /\ crop (F:=Q) pc "RGB" (1, 0, 0, 0) = Ok ([[[2]]; [[5]]], (None, None))
  /\ crop_image_words data (1, 0, 0, 0) = [[[2]; [3]]; [[5]; [6]]].
Proof. repeat split. Qed.

(** C10: with the four offsets at zero [crop] still drops the columns of
    a channel-last image past its height: of an image of 1 row by 2
    columns it returns the first column only. *)
Theorem crop_zero_offsets_drops_columns :
  let data : array3 Z := [[[1]; [2]]] in
  let pc := (data, ((0, 0, 2, 1)%Q, WEB_MERCATOR_CRS)) in
  shape3 data = (1, 2, 1)
  /\ crop (F:=Q) pc "RGB" (0, 0, 0, 0) = Ok ([[[1]]], (None, None))
  /\ [[[1]]] <> data.
Proof. repeat split. discriminate. Qed.

(** The window that [crop] hands to [windows.bounds] takes the cropped
    height for its number of columns and the cropped width for its number
    of rows: one band of 1 row by 2 columns over (0, 0, 4, 2), cropped by
    nothing, comes back over (0, -2, 2, 2). *)
Example crop_raw_window_swapped :
  crop (F:=Q) ([[[1; 2]]], ((0, 0, 4, 2)%Q, WEB_MERCATOR_CRS)) "raw" (0, 0, 0, 0)
  = Ok ([[[1; 2]]], (Some (0 # 2, -2, 4 # 2, 2)%Q, Some WEB_MERCATOR_CRS)).
Proof. reflexivity. Qed.

(** With no offsets the crop of band-first data that is as high as it is
    wide returns the data and, in exact arithmetic, the bounds it was
    given. *)
Lemma crop_raw_zero_offsets_square {A} (data : array3 A) n s
    (west south east north : R) crs data_format :
  _isimage data_format = false ->
  rectangular3 data n s s -> 0 < n -> 0 < s ->
  crop (data, ((west, south, east, north), crs)) data_format (0, 0, 0, 0)
  = Ok (data, (Some (west, south, east, north), Some crs)).
Proof.
  intros Hfmt Hrect Hn Hs.
  pose proof (crop_raw_zero_offsets data n s s Hrect Hn Hs) as Hdata.
  unfold crop_raw_words in Hdata.
  pose proof (shape3_rectangular data n s s Hrect Hn Hs) as Hshape.
  rewrite Hshape in Hdata.
  unfold crop. rewrite Hfmt, Hshape. unfold from_bounds.
  rewrite !truediv_int_ok by lia. cbn [mbind Result_bind].
  rewrite Hdata, Hshape. unfold windows_bounds, Affine_apply.
  cbn [col_off row_off num_cols num_rows a b c d e f].
  R_ops. do 4 f_equal.
  assert (IZR s <> 0%R) by (apply not_0_IZR; lia).
  f_equal; [f_equal; [f_equal|]|]; field; done.
Qed.

(** ** The buffer geometry of [render] *)

Section RenderGeometry.
Context `{MathLib F}.
#[local] Open Scope num_scope.

Lemma buffers_declared transformation buffer :
  buffers transformation buffer
  = ((buffer + declared_buffer transformation)%Z, declared_buffer transformation).
Proof.
  unfold buffers, declared_buffer.
  destruct transformation as [t|]; [destruct (transformation_buffer t)|];
    simpl; f_equal; lia.
Qed.

Lemma apply_buffer_expanded bounds shape resolution effective_buffer offset :
  apply_buffer bounds shape resolution effective_buffer offset
  = expanded_request bounds shape resolution effective_buffer offset.
Proof.
  destruct bounds as [[[l b] r] t], shape as [height width],
    resolution as [xres yres].
  reflexivity.
Qed.

Lemma clamp_to_extent_per_edge extent bounds_orig effective_buffer q :
  clamp_to_extent extent bounds_orig effective_buffer q
  = clamped_per_edge extent bounds_orig effective_buffer q.
Proof.
  destruct q as [[[[b0 b1] b2] b3] [h w] ql qr qb qt].
  destruct extent as [[[e0 e1] e2] e3].
  destruct bounds_orig as [[[o0 o1] o2] o3].
  unfold clamp_to_extent, clamped_per_edge, exceeds_left, exceeds_right,
    exceeds_bottom, exceeds_top, clamp_left; simpl.
  destruct (b0 <? e0); unfold clamp_right; simpl;
    destruct (e2 <? b2); unfold clamp_bottom; simpl;
    destruct (b1 <? e1); unfold clamp_top; simpl;
    destruct (e3 <? b3); simpl; f_equal; f_equal; lia.
Qed.
Lemma render_request_unfold
    (bounds : Bounds F) crs (shape : Z * Z) transformation buffer :
  render_request (bounds, crs) shape transformation buffer
  = (resolution ← get_resolution (bounds, crs) shape;
     resolution_m ← get_resolution_in_meters (bounds, crs) shape;
     extent ← get_extent crs;
     Ok (clamp_to_extent extent bounds
           (buffer + declared_buffer transformation)
           (apply_buffer bounds shape resolution
              (buffer + declared_buffer transformation)
              (declared_buffer transformation)),
         resolution_m)).
Proof. unfold render_request. by rewrite buffers_declared. Qed.

(** C3: with effective_buffer = own buffer + the buffer the
    transformation declares (0 without a transformation or without a
    declared buffer), the request that enters the extent clamping of
    [render] is the requested one with both dimensions grown by
    2 * effective_buffer and the four bounds moved outward by
    effective_buffer times the resolution of their axis. *)
Theorem render_buffer_expansion
    (bounds : Bounds F) crs (h w : Z) transformation buffer :
  h <> 0%Z -> w <> 0%Z ->
  let effective_buffer := (buffer + declared_buffer transformation)%Z in
  let offset := declared_buffer transformation in
  buffers transformation buffer = (effective_buffer, offset)
  /\ exists resolution resolution_m,
       get_resolution (bounds, crs) (h, w) = Ok resolution
       /\ render_request (bounds, crs) (h, w) transformation buffer
          = (extent ← get_extent crs;
             Ok (clamp_to_extent extent bounds effective_buffer
                   (expanded_request bounds (h, w) resolution
                      effective_buffer offset),
                 resolution_m)).
Proof.
  intros Hh Hw effective_buffer offset. split; [apply buffers_declared|].
  destruct (get_resolution_in_meters_ok bounds crs h w Hh Hw) as [res_m Hm].
  destruct bounds as [[[l b] r] t].
  eexists _, res_m. split; [by apply get_resolution_ok|].
  rewrite render_request_unfold, get_resolution_ok, Hm by done.
  cbn [mbind Result_bind]. by rewrite apply_buffer_expanded.
Qed.

(** With nonzero dimensions and a registered extent [render_request]
    returns the clamped, buffered request. *)
Lemma render_request_ok (l b r t : F) crs (h w : Z) transformation buffer extent :
  h <> 0%Z -> w <> 0%Z ->
  get_extent crs = Ok extent ->
  exists resolution_m,
    render_request ((l, b, r, t), crs) (h, w) transformation buffer
    = Ok (clamp_to_extent extent (l, b, r, t)
            (buffer + declared_buffer transformation)
            (apply_buffer (l, b, r, t) (h, w)
               (abs ((r - l) / of_Z w), abs ((b - t) / of_Z h))
               (buffer + declared_buffer transformation)
               (declared_buffer transformation)),
          resolution_m).
Proof.
  intros Hh Hw Hext.
  destruct (get_resolution_in_meters_ok (l, b, r, t) crs h w Hh Hw) as [res_m Hm].
  exists res_m.
  rewrite render_request_unfold, get_resolution_ok, Hm by done.
  cbn [mbind Result_bind]. by rewrite Hext.
Qed.

(** C2: the extent clamping of [render] acts on each edge by itself: the
    request handed on is the expanded one in which exactly the edges that
    pass the registered extent have their unbuffered bound back, have
    taken effective_buffer off the dimension of their axis and have crop
    offset 0, the other edges keeping the buffered bound and the offset. *)
Theorem render_extent_clamping
    (bounds : Bounds F) crs (h w : Z) transformation buffer extent :
  h <> 0%Z -> w <> 0%Z ->
  get_extent crs = Ok extent ->
  let effective_buffer := (buffer + declared_buffer transformation)%Z in
  let offset := declared_buffer transformation in
  exists resolution resolution_m,
    get_resolution (bounds, crs) (h, w) = Ok resolution
    /\ render_request (bounds, crs) (h, w) transformation buffer
       = Ok (clamped_per_edge extent bounds effective_buffer
               (expanded_request bounds (h, w) resolution
                  effective_buffer offset),
             resolution_m).
Proof.
  intros Hh Hw Hext effective_buffer offset.
  destruct bounds as [[[l b] r] t].
  destruct (render_request_ok l b r t crs h w transformation buffer extent
              Hh Hw Hext) as [res_m Hreq].
  eexists _, res_m. split; [by apply get_resolution_ok|].
  by rewrite Hreq, clamp_to_extent_per_edge, apply_buffer_expanded.
Qed.

(** A request that passes the extent on its left edge only loses
    effective_buffer of its width and nothing else: the other three
    bounds stay buffered, the height and the other offsets stay. *)
Lemma clamped_left_only (extent bounds_orig : Bounds F) effective_buffer q :
  exceeds_left extent q = true -> exceeds_right extent q = false ->
  exceeds_bottom extent q = false -> exceeds_top extent q = false ->
  clamped_per_edge extent bounds_orig effective_buffer q
  = mkRequest (bounds_orig.1.1.1, (req_bounds q).1.1.2,
               (req_bounds q).1.2, (req_bounds q).2)
              (fst (req_shape q), (snd (req_shape q) - effective_buffer)%Z)
              0 (req_right q) (req_bottom q) (req_top q).
Proof.
  intros Hl Hr Hb Ht. unfold clamped_per_edge. rewrite Hl, Hr, Hb, Ht.
  simpl. f_equal. f_equal; lia.
Qed.

Lemma clamped_right_only (extent bounds_orig : Bounds F) effective_buffer q :
  exceeds_left extent q = false -> exceeds_right extent q = true ->
  exceeds_bottom extent q = false -> exceeds_top extent q = false ->
  clamped_per_edge extent bounds_orig effective_buffer q
  = mkRequest ((req_bounds q).1.1.1, (req_bounds q).1.1.2,
               bounds_orig.1.2, (req_bounds q).2)
              (fst (req_shape q), (snd (req_shape q) - effective_buffer)%Z)
              (req_left q) 0 (req_bottom q) (req_top q).
Proof.
  intros Hl Hr Hb Ht. unfold clamped_per_edge. rewrite Hl, Hr, Hb, Ht.
  simpl. f_equal. f_equal; lia.
Qed.

Lemma clamped_bottom_only (extent bounds_orig : Bounds F) effective_buffer q :
  exceeds_left extent q = false -> exceeds_right extent q = false ->
  exceeds_bottom extent q = true -> exceeds_top extent q = false ->
  clamped_per_edge extent bounds_orig effective_buffer q
  = mkRequest ((req_bounds q).1.1.1, bounds_orig.1.1.2,
               (req_bounds q).1.2, (req_bounds q).2)
              ((fst (req_shape q) - effective_buffer)%Z, snd (req_shape q))
              (req_left q) (req_right q) 0 (req_top q).
Proof.
  intros Hl Hr Hb Ht. unfold clamped_per_edge. rewrite Hl, Hr, Hb, Ht.
  simpl. f_equal. f_equal; lia.
Qed.

Lemma clamped_top_only (extent bounds_orig : Bounds F) effective_buffer q :
  exceeds_left extent q = false -> exceeds_right extent q = false ->
  exceeds_bottom extent q = false -> exceeds_top extent q = true ->
  clamped_per_edge extent bounds_orig effective_buffer q
  = mkRequest ((req_bounds q).1.1.1, (req_bounds q).1.1.2,
               (req_bounds q).1.2, bounds_orig.2)
              ((fst (req_shape q) - effective_buffer)%Z, snd (req_shape q))
              (req_left q) (req_right q) (req_bottom q) 0.
Proof.
  intros Hl Hr Hb Ht. unfold clamped_per_edge. rewrite Hl, Hr, Hb, Ht.
  simpl. f_equal. f_equal; lia.
Qed.

(** A request inside the extent on all four edges keeps the expansion. *)
Lemma clamped_interior (extent bounds_orig : Bounds F) effective_buffer q :
  exceeds_left extent q = false -> exceeds_right extent q = false ->
  exceeds_bottom extent q = false -> exceeds_top extent q = false ->
  clamped_per_edge extent bounds_orig effective_buffer q = q.
Proof.
  intros Hl Hr Hb Ht. unfold clamped_per_edge. rewrite Hl, Hr, Hb, Ht.
  destruct q as [[[[b0 b1] b2] b3] [height width] ql qr qb qt]. simpl.
  f_equal. f_equal; lia.
Qed.
End RenderGeometry.


Lemma render_buffer_expansion_witness :
  buffers (F:=R) (Some padded_identity) 2 = (6, 4)
  /\ exists resolution resolution_m,
       get_resolution ((0, 0, 1, 1)%R, WEB_MERCATOR_CRS) (256, 256)
       = Ok resolution
       /\ render_request ((0, 0, 1, 1)%R, WEB_MERCATOR_CRS) (256, 256)
            (Some padded_identity) 2
          = (extent ← get_extent WEB_MERCATOR_CRS;
             Ok (clamp_to_extent extent (0, 0, 1, 1)%R 6
                   (expanded_request (0, 0, 1, 1)%R (256, 256) resolution 6 4),
                 resolution_m)).
Proof.
  exact (render_buffer_expansion (F:=R) (0, 0, 1, 1)%R WEB_MERCATOR_CRS
           256 256 (Some padded_identity) 2 ltac:(lia) ltac:(lia)).
Defined.

Lemma render_extent_clamping_witness :
  exists resolution resolution_m,
    get_resolution ((-180, 0, -90, 90)%R, WGS84_CRS) (256, 256) = Ok resolution
    /\ render_request ((-180, 0, -90, 90)%R, WGS84_CRS) (256, 256)
         (Some padded_identity) 0
       = Ok (clamped_per_edge
               (of_Z (-180), of_Z (-90), of_Z 180, of_Z 90)
               (-180, 0, -90, 90)%R 4
               (expanded_request (-180, 0, -90, 90)%R (256, 256) resolution 4 4),
             resolution_m).
Proof.
  exact (render_extent_clamping (F:=R) (-180, 0, -90, 90)%R WGS84_CRS
           256 256 (Some padded_identity) 0 _
           ltac:(lia) ltac:(lia) ltac:(reflexivity)).
Defined.

(** ** The extent registry *)

Section ExtentRegistry.
Context `{MathLib F} `{!RasterAccess F} `{!RenderCollaborators F}.

Lemma get_extent_WEB_MERCATOR :
  get_extent (F:=F) WEB_MERCATOR_CRS
  = Ok (of_Q (-20037508342789244 # 1000000000),
        of_Q (-20037508342789244 # 1000000000),
        of_Q (20037508342789244 # 1000000000),
        of_Q (20037508342789244 # 1000000000)).
Proof. reflexivity. Qed.

Lemma get_extent_WGS84 :
  get_extent (F:=F) WGS84_CRS = Ok (of_Z (-180), of_Z (-90), of_Z 180, of_Z 90).
Proof. reflexivity. Qed.

Lemma EXTENTS_lookup_None (key : string) :
  EXTENTS (F:=F) !! key = None
  <-> key <> str WEB_MERCATOR_CRS /\ key <> str WGS84_CRS.
Proof.
  unfold EXTENTS. split.
  - intros Hnone. split; intros ->; by vm_compute in Hnone.
  - intros [H1 H2]. by rewrite !lookup_insert_ne, lookup_empty.
Qed.

Lemma get_extent_unregistered (crs : CRS) :
  EXTENTS (F:=F) !! str crs = None ->
  get_extent (F:=F) crs = Raise (KeyError (str crs)).
Proof. intros Hnone. unfold get_extent. by rewrite Hnone. Qed.

Lemma read_window_unregistered src (bounds : Bounds F) crs shape :
  EXTENTS (F:=F) !! str crs = None ->
  read_window src (bounds, crs) shape
  = Raise (Exception ("Unsupported CRS: " +:+ str crs)).
Proof.
  intros Hnone. unfold read_window, destination_grid. destruct shape.
  by rewrite get_extent_unregistered.
Qed.

Lemma render_unregistered (bounds : Bounds F) crs h w target_crs format
    transformation buffer :
  h <> 0 -> w <> 0 ->
  EXTENTS (F:=F) !! str crs = None ->
  render (bounds, crs) (h, w) target_crs format transformation buffer
  = Raise (KeyError (str crs)).
Proof.
  intros Hh Hw Hnone. unfold render.
  rewrite render_request_unfold.
  destruct (get_resolution_in_meters_ok bounds crs h w Hh Hw) as [res_m Hm].
  destruct bounds as [[[l b] r] t].
  rewrite get_resolution_ok, Hm by done.
  by rewrite get_extent_unregistered.
Qed.

(** C7: [get_extent] is a lookup in [EXTENTS]: it returns the extent of a
    CRS whose text is a key of the table, which are web mercator
    (EPSG:3857) and WGS84 (EPSG:4326), and raises [KeyError] for any
    other CRS.  Where it is called the failure stays one about the CRS:
    [read_window] raises "Unsupported CRS" in its place, and [render],
    once the resolutions are computed, lets the [KeyError] through. *)
Theorem get_extent_registered_only (crs : CRS) src (bounds : Bounds F)
    h w target_crs format transformation buffer :
  (str crs = str WEB_MERCATOR_CRS \/ str crs = str WGS84_CRS ->
   exists extent, EXTENTS !! str crs = Some extent
                  /\ get_extent (F:=F) crs = Ok extent)
  /\ (str crs <> str WEB_MERCATOR_CRS -> str crs <> str WGS84_CRS ->
      get_extent (F:=F) crs = Raise (KeyError (str crs))
      /\ read_window src (bounds, crs) (h, w)
         = Raise (Exception ("Unsupported CRS: " +:+ str crs))
      /\ (h <> 0 -> w <> 0 ->
          render (bounds, crs) (h, w) target_crs format transformation buffer
          = Raise (KeyError (str crs)))).
Proof.
  split.
  - intros [Heq|Heq]; unfold get_extent; rewrite Heq; eexists; split; reflexivity.
  - intros H1 H2.
    assert (Hnone : EXTENTS (F:=F) !! str crs = None)
      by by apply EXTENTS_lookup_None.
    split; [by apply get_extent_unregistered|].
    split; [by apply read_window_unregistered|].
    intros Hh Hw. by apply render_unregistered.
Qed.
End ExtentRegistry.

Lemma get_extent_registered_only_witness :
  let utm := mkCRS "+init=epsg:32610" false in
  (exists extent, EXTENTS !! str WGS84_CRS = Some extent
                  /\ get_extent (F:=R) WGS84_CRS = Ok extent)
  /\ get_extent (F:=R) utm = Raise (KeyError "+init=epsg:32610")
  /\ read_window (RasterAccess0:=constant_raster 1 false) tt
       ((0, 0, 1, 1)%R, utm) (256, 256)
     = Raise (Exception "Unsupported CRS: +init=epsg:32610")
  /\ render (RenderCollaborators0:=zero_mosaic) ((0, 0, 1, 1)%R, utm)
       (256, 256) utm encode_shape None 0
     = Raise (KeyError "+init=epsg:32610").
Proof.
  intros utm.
  pose proof (get_extent_registered_only (F:=R)
                (RasterAccess0:=constant_raster 1 false)
                (RenderCollaborators0:=zero_mosaic)
                WGS84_CRS tt (0, 0, 1, 1)%R 256 256 utm encode_shape None 0)
    as [Hreg _].
  pose proof (get_extent_registered_only (F:=R)
                (RasterAccess0:=constant_raster 1 false)
                (RenderCollaborators0:=zero_mosaic)
                utm tt (0, 0, 1, 1)%R 256 256 utm encode_shape None 0)
    as [_ Hun].
  split; [apply Hreg; right; reflexivity|].
  destruct Hun as (Hget & Hread & Hrender); [discriminate|discriminate|].
  split; [exact Hget|]. split; [exact Hread|]. apply Hrender; lia.
Defined.

(** ** The window planner *)

Lemma rectangular2_map2 {A B} (g : A -> B) (data : array2 A) n0 n1 :
  rectangular2 data n0 n1 -> rectangular2 (map2 g data) n0 n1.
Proof.
  intros [Hn Hrows]. split; unfold map2.
  - by rewrite length_map.
  - apply Forall_map. eapply Forall_impl; [exact Hrows|].
    intros row Hrow. simpl. by rewrite length_map.
Qed.

Lemma rectangular3_map3 {A B} (g : A -> B) (data : array3 A) n0 n1 n2 :
  rectangular3 data n0 n1 n2 -> rectangular3 (map3 g data) n0 n1 n2.
Proof.
  intros [Hn Hbands]. split; unfold map3.
  - by rewrite length_map.
  - apply Forall_map. eapply Forall_impl; [exact Hbands|].
    intros band Hband. by apply (rectangular2_map2 g) in Hband.
Qed.

Lemma rectangular3_newaxis {A} (data : array2 A) n1 n2 :
  rectangular2 data n1 n2 -> rectangular3 [data] 1 n1 n2.
Proof. intros Hrect. split; [done|]. by apply Forall_cons. Qed.

Lemma length_arange `{Number F} (n : Z) :
  0 <= n -> Z.of_nat (length (arange (F:=F) n)) = n.
Proof. intros Hn. unfold arange. rewrite length_map, length_seq. lia. Qed.

Lemma set_mask1_length {A} (row : list (A * bool)) mask row' :
  set_mask1 row mask = Ok row' -> length row' = length row.
Proof.
  revert mask row'. induction row as [|[x m0] row IH]; intros [|m mask] row' Hset;
    simpl in Hset; try discriminate.
  - by inversion Hset.
  - destruct (set_mask1 row mask) as [r|] eqn:Hr; [|discriminate].
    inversion Hset; subst. simpl. f_equal. by eapply IH.
Qed.

Lemma set_mask2_rectangular {A} (data : array2 (A * bool)) mask data' n0 n1 :
  set_mask2 data mask = Ok data' ->
  rectangular2 data n0 n1 -> rectangular2 data' n0 n1.
Proof.
  revert mask data' n0.
  induction data as [|row data IH]; intros [|m mask] data' n0 Hset [Hn Hrows];
    simpl in Hset; try discriminate.
  - by inversion Hset.
  - destruct (set_mask1 row m) as [r|] eqn:Hr; [|discriminate].
    destruct (set_mask2 data mask) as [rs|] eqn:Hrs; [|discriminate].
    inversion Hset; subst. apply Forall_cons in Hrows as [Hrow Hrows].
    destruct (IH mask rs (Z.of_nat (length data)) Hrs) as [Hn' Hrows']; [done|].
    split; [simpl; lia|].
    apply Forall_cons. split; [|done].
    by rewrite (set_mask1_length _ _ _ Hr).
Qed.

Lemma set_mask3_rectangular {A} (data : array3 (A * bool)) mask data' n0 n1 n2 :
  set_mask3 data mask = Ok data' ->
  rectangular3 data n0 n1 n2 -> rectangular3 data' n0 n1 n2.
Proof.
  revert mask data' n0.
  induction data as [|band data IH]; intros [|m mask] data' n0 Hset [Hn Hbands];
    simpl in Hset; try discriminate.
  - by inversion Hset.
  - destruct (set_mask2 band m) as [r|] eqn:Hr; [|discriminate].
    destruct (set_mask3 data mask) as [rs|] eqn:Hrs; [|discriminate].
    inversion Hset; subst. apply Forall_cons in Hbands as [Hband Hbands].
    destruct (IH mask rs (Z.of_nat (length data)) Hrs) as [Hn' Hbands']; [done|].
    split; [simpl; lia|].
    apply Forall_cons. split; [|done].
    by eapply (set_mask2_rectangular band m r).
Qed.

Lemma bind_Ok_inv {A B} (r : Result A) (k : A -> Result B) (b : B) :
  r ≫= k = Ok b -> exists a, r = Ok a /\ k a = Ok b.
Proof. destruct r as [a|err]; [by exists a|discriminate]. Qed.

(** Peel the successful steps off a sequence of calls that returned. *)
Ltac bind_ok H :=
  repeat match type of H with
  | mbind _ _ = Ok _ =>
      let a := fresh "a" in
      let E := fresh "E" in
      apply bind_Ok_inv in H as (a & E & H); cbv beta in H
  end.

Section WindowPlanner.
Context `{MathLib F} `{!RasterAccess F}.

Lemma rectangular3_nodata_mask (dtype : Dtype) (nodata : option F)
    (data : array3 F) n0 n1 n2 :
  rectangular3 data n0 n1 n2 ->
  rectangular3
    (astype_float32
       match nodata with
       | Some nodata => _mask3 dtype data nodata
       | None => unmasked3 data
       end) n0 n1 n2.
Proof.
  intros Hrect. apply rectangular3_map3.
  destruct nodata; by apply rectangular3_map3.
Qed.

(** Both branches of the read hand on (bands, height, width) cells: the
    spline branch, taken for one band, evaluates on [arange(0, height)] by
    [arange(0, width)] and adds the band axis; the direct branch asks for
    that [out_shape]. *)
Lemma read_data_shape `{!RasterAccessContract F} vrt (bounds : Bounds F) h w data :
  0 <= h -> 0 <= w ->
  read_data vrt bounds (h, w) = Ok data ->
  rectangular3 data (vrt_count vrt) h w.
Proof.
  intros Hh Hw Hread. unfold read_data in Hread. bind_ok Hread.
  match type of Hread with
  | (if ?spline then _ else _) = _ => destruct spline eqn:Hpath
  end.
  - apply andb_prop in Hpath as [Hcount _]. apply Z.eqb_eq in Hcount.
    bind_ok Hread.
    match type of Hread with
    | context [toranges ?window] => destruct (toranges window) as [r c]
    end.
    bind_ok Hread.
    match type of Hread with
    | context [let '(x, y) := ?xy in _] => destruct xy as [x y]
    end.
    bind_ok Hread.
    injection Hread as <-. rewrite Hcount.
    match goal with
    | Hcall : Spline_call _ _ _ = Ok _ |- _ =>
        apply Spline_call_shape in Hcall; rewrite !length_arange in Hcall by done
    end.
    apply rectangular3_map3.
    destruct (vrt_nodata vrt);
      by apply rectangular3_newaxis, rectangular2_map2.
  - bind_ok Hread. injection Hread as <-.
    apply rectangular3_nodata_mask.
    by eapply vrt_read_shape.
Qed.

Lemma read_window_unfold src (bounds : Bounds F) crs shape dst vrt data :
  destination_grid src (bounds, crs) shape = Ok dst ->
  WarpedVRT src (src_nodata src) crs dst.1.1 dst.1.2 dst.2 = Ok vrt ->
  read_data vrt bounds shape = Ok data ->
  read_window src (bounds, crs) shape
  = Ok (try_except_pass data (read_mask src vrt (bounds, crs) shape dst data),
        (bounds, crs)).
Proof.
  intros Hdst Hvrt Hdata. unfold read_window. rewrite Hdst.
  destruct dst as [[dst_width dst_height] dst_transform].
  cbn [mbind Result_bind]. simpl in Hvrt. rewrite Hvrt.
  cbn [mbind Result_bind]. by rewrite Hdata.
Qed.

Lemma read_mask_open_fails src vrt (bc : Bounds F * CRS) shape dst data err :
  rasterio_open (src_name src +:+ ".msk") (src_crs src) = Raise err ->
  read_mask src vrt bc shape dst data = Raise err.
Proof.
  intros Hopen. unfold read_mask.
  destruct bc, shape, dst as [[? ?] ?]. by rewrite Hopen.
Qed.

(** C1: once the destination grid is planned, the warped view opened and
    its data read, [read_window] returns the pair of the target bounds
    and CRS it was given and a masked array of exactly (bands, height,
    width) cells, through the spline branch and through the direct
    branch, with or without a mask file. *)
Theorem read_window_shape `{!RasterAccessContract F}
    src (bounds : Bounds F) crs h w dst vrt d :
  0 < h -> 0 < w ->
  destination_grid src (bounds, crs) (h, w) = Ok dst ->
  WarpedVRT src (src_nodata src) crs dst.1.1 dst.1.2 dst.2 = Ok vrt ->
  read_data vrt bounds (h, w) = Ok d ->
  exists data,
    read_window src (bounds, crs) (h, w) = Ok (data, (bounds, crs))
    /\ rectangular3 data (vrt_count vrt) h w.
Proof.
  intros Hh Hw Hdst Hvrt Hdata.
  rewrite (read_window_unfold _ _ _ _ _ _ _ Hdst Hvrt Hdata).
  eexists. split; [reflexivity|].
  assert (Hd : rectangular3 d (vrt_count vrt) h w)
    by (eapply read_data_shape; [lia|lia|done]).
  unfold try_except_pass.
  destruct (read_mask _ _ _ _ _ _) as [masked|] eqn:Hmask; [|done].
  unfold read_mask in Hmask. destruct dst as [[? ?] ?]. bind_ok Hmask.
  by eapply set_mask3_rectangular.
Qed.

(** C6: a failure of the mask path, whatever it is and wherever in the
    path it occurs, the opening of the [.msk] file included, is not
    raised by [read_window]: it returns the data that was read, under the
    mask derived from nodata. *)
Theorem read_window_mask_failure src (bounds : Bounds F) crs h w dst vrt d :
  destination_grid src (bounds, crs) (h, w) = Ok dst ->
  WarpedVRT src (src_nodata src) crs dst.1.1 dst.1.2 dst.2 = Ok vrt ->
  read_data vrt bounds (h, w) = Ok d ->
  (forall err,
     read_mask src vrt (bounds, crs) (h, w) dst d = Raise err ->
     read_window src (bounds, crs) (h, w) = Ok (d, (bounds, crs)))
  /\ (forall err,
        rasterio_open (src_name src +:+ ".msk") (src_crs src) = Raise err ->
        read_window src (bounds, crs) (h, w) = Ok (d, (bounds, crs))).
Proof.
  intros Hdst Hvrt Hdata.
  assert (Hany : forall err,
            read_mask src vrt (bounds, crs) (h, w) dst d = Raise err ->
            read_window src (bounds, crs) (h, w) = Ok (d, (bounds, crs))).
  { intros err Hmask.
    rewrite (read_window_unfold _ _ _ _ _ _ _ Hdst Hvrt Hdata).
    by rewrite Hmask. }
  split; [exact Hany|].
  intros err Hopen. apply (Hany err). by apply read_mask_open_fails.
Qed.

(** X13: [read_window] raises only what the planning of the grid, the
    opening of the warped view or the read of the data raised: nothing
    that the mask path raises reaches the caller. *)
Lemma read_window_raises src (bounds : Bounds F) crs shape err :
  read_window src (bounds, crs) shape = Raise err ->
  destination_grid src (bounds, crs) shape = Raise err
  \/ exists dst,
       destination_grid src (bounds, crs) shape = Ok dst
       /\ (WarpedVRT src (src_nodata src) crs dst.1.1 dst.1.2 dst.2 = Raise err
           \/ exists vrt,
                WarpedVRT src (src_nodata src) crs dst.1.1 dst.1.2 dst.2 = Ok vrt
                /\ read_data vrt bounds shape = Raise err).
Proof.
  unfold read_window. intros Hraise.
  destruct (destination_grid _ _ _) as [[[dw dh] dt]|e1] eqn:Hdst;
    cbn [mbind Result_bind] in Hraise; [|left; congruence].
  right. eexists. split; [reflexivity|]. simpl.
  destruct (WarpedVRT _ _ _ _ _ _) as [vrt|e2] eqn:Hvrt;
    cbn [mbind Result_bind] in Hraise; [|left; congruence].
  right. exists vrt. split; [done|].
  destruct (read_data _ _ _) as [data|e3] eqn:Hdata;
    cbn [mbind Result_bind] in Hraise; [discriminate|congruence].
Qed.
End WindowPlanner.

Lemma constant_raster_contract count with_mask :
  RasterAccessContract R (H0:=constant_raster count with_mask).
Proof.
  split.
  - intros vrt n h w window data. simpl.
    destruct (_ && _)%bool eqn:Hnonneg; [|discriminate].
    intros [= <-]. apply andb_prop in Hnonneg as [Hnh Hw].
    apply andb_prop in Hnh as [Hn Hh].
    apply Z.leb_le in Hn, Hh, Hw.
    unfold full3, full2. split; [rewrite repeat_length; lia|].
    apply Forall_forall. intros band ->%list_elem_of_In%repeat_spec.
    split; [rewrite repeat_length; lia|].
    apply Forall_forall. intros row ->%list_elem_of_In%repeat_spec.
    rewrite repeat_length; lia.
  - intros interp ys xs data. simpl. intros [= <-].
    unfold full2. split; [rewrite repeat_length; lia|].
    apply Forall_forall. intros row ->%list_elem_of_In%repeat_spec.
    rewrite repeat_length; lia.
Qed.

Lemma destination_grid_constant_raster count with_mask :
  destination_grid (RasterAccess0:=constant_raster count with_mask) tt
    ((0, 0, 1, 1)%R, WGS84_CRS) (32, 32)
  = Ok ((1 / Rabs ((1 - 0) / of_Z 32) * (of_Z 180 - of_Z (-180)))%R,
        (1 / Rabs ((0 - 1) / of_Z 32) * (of_Z 90 - of_Z (-90)))%R,
        mkAffine (Rabs ((1 - 0) / of_Z 32)) (of_Z 0) (of_Z (-180))
                 (of_Z 0) (- Rabs ((0 - 1) / of_Z 32))%R (of_Z 90)).
Proof.
  unfold destination_grid. rewrite get_extent_WGS84.
  cbn [mbind Result_bind].
  replace (CRS_eqb WGS84_CRS WEB_MERCATOR_CRS) with false by reflexivity.
  rewrite get_resolution_ok by done. cbn [mbind Result_bind fst snd].
  rewrite R_truediv by R_closed. cbn [mbind Result_bind].
  rewrite R_truediv by R_closed. cbn [mbind Result_bind].
  rewrite !R_of_Z. reflexivity.
Qed.

Lemma sample_coordinates_constant_raster count with_mask bounds shape
    scale_factor pixel buffer window :
  sample_coordinates (RasterAccess0:=constant_raster count with_mask) tt
    bounds shape scale_factor pixel buffer window
  = Ok ([], []).
Proof.
  unfold sample_coordinates. destruct shape as [height width].
  by destruct (_ || _)%bool.
Qed.

(** Three bands: the direct branch. *)
Lemma read_data_direct_branch with_mask :
  read_data (RasterAccess0:=constant_raster 3 with_mask) tt
    (0, 0, 1, 1)%R (32, 32)
  = Ok (full3 3 32 32 (1%R, false)).
Proof. reflexivity. Qed.

(** One band and 16 source columns for 32 target columns: the spline
    branch. *)
Lemma read_data_spline_branch with_mask :
  read_data (RasterAccess0:=constant_raster 1 with_mask) tt
    (0, 0, 1, 1)%R (32, 32)
  = Ok (full3 1 32 32 (1%R, false)).
Proof.
  unfold read_data.
  cbn [vrt_window constant_raster mbind Result_bind truediv_int
       num_cols num_rows Z.eqb vrt_count].
  rewrite (R_ltb_true (16 / of_Z 32)%R) by R_closed.
  cbn [andb orb Pos.eqb].
  rewrite R_truediv by R_closed. cbn [mbind Result_bind].
  unfold toranges. cbn beta iota zeta.
  rewrite sample_coordinates_constant_raster.
  reflexivity.
Qed.

Lemma read_window_shape_witness :
  exists data,
    read_window (RasterAccess0:=constant_raster 1 true) tt
      ((0, 0, 1, 1)%R, WGS84_CRS) (32, 32)
    = Ok (data, ((0, 0, 1, 1)%R, WGS84_CRS))
    /\ rectangular3 data 1 32 32.
Proof.
  exact (read_window_shape (RasterAccess0:=constant_raster 1 true)
           (RasterAccessContract0:=constant_raster_contract 1 true)
           tt (0, 0, 1, 1)%R WGS84_CRS 32 32 _ tt _
           ltac:(lia) ltac:(lia)
           (destination_grid_constant_raster 1 true)
           eq_refl
           (read_data_spline_branch true)).
Defined.

Lemma read_window_mask_failure_witness :
  read_window (RasterAccess0:=constant_raster 3 false) tt
    ((0, 0, 1, 1)%R, WGS84_CRS) (32, 32)
  = Ok (full3 3 32 32 (1%R, false), ((0, 0, 1, 1)%R, WGS84_CRS)).
Proof.
  exact (proj2 (read_window_mask_failure (RasterAccess0:=constant_raster 3 false)
                  tt (0, 0, 1, 1)%R WGS84_CRS 32 32 _ tt _
                  (destination_grid_constant_raster 3 false)
                  eq_refl
                  (read_data_direct_branch false))
           (IOError "No such file or directory") eq_refl).
Defined.

(** With the mask file present and every mask cell 255, the window comes
    back unmasked, through either branch. *)
Example read_window_with_mask_spline :
  read_window (RasterAccess0:=constant_raster 1 true) tt
    ((0, 0, 1, 1)%R, WGS84_CRS) (32, 32)
  = Ok (full3 1 32 32 (1%R, false), ((0, 0, 1, 1)%R, WGS84_CRS)).
Proof.
  rewrite (read_window_unfold _ _ _ _ _ _ _
             (destination_grid_constant_raster 1 true) eq_refl
             (read_data_spline_branch true)).
  reflexivity.
Qed.

Example read_window_with_mask_direct :
  read_window (RasterAccess0:=constant_raster 3 true) tt
    ((0, 0, 1, 1)%R, WGS84_CRS) (32, 32)
  = Ok (full3 3 32 32 (1%R, false), ((0, 0, 1, 1)%R, WGS84_CRS)).
Proof.
  rewrite (read_window_unfold _ _ _ _ _ _ _
             (destination_grid_constant_raster 3 true) eq_refl
             (read_data_direct_branch true)).
  reflexivity.
Qed.

(** ** The crop at the end of [render] *)

Section RenderCrop.
Context `{MathLib F} `{!RenderCollaborators F}.

Lemma crop_gate transformation buffer :
  (buffer <? fst (buffers (F:=F) transformation buffer))
  = (0 <? declared_buffer transformation).
Proof.
  rewrite buffers_declared. simpl.
  destruct (Z.ltb_spec 0 (declared_buffer transformation));
    [apply Z.ltb_lt|apply Z.ltb_ge]; lia.
Qed.

(** [render] crops exactly when the transformation declares a positive
    buffer, and then by the four offsets of the clamped request. *)
Lemma render_crop_gate (bounds : Bounds F) crs shape target_crs format
    transformation buffer q resolution_m sources data data_bounds data_crs
    data' data_format :
  render_request (bounds, crs) shape transformation buffer
    = Ok (q, resolution_m) ->
  mosaic_get_sources (req_bounds q, crs) resolution_m = Ok sources ->
  mosaic_composite sources (req_bounds q, crs) (req_shape q) target_crs
    = Ok (data, (data_bounds, data_crs)) ->
  transformed transformation (data, (data_bounds, data_crs))
    = Ok (data', data_format) ->
  render (bounds, crs) shape target_crs format transformation buffer
  = (pc ← (if 0 <? declared_buffer transformation
           then crop (data', (data_bounds, data_crs)) data_format
                  (req_left q, req_right q, req_bottom q, req_top q)
           else Ok (data', (Some data_bounds, Some data_crs)));
     format pc data_format).
Proof.
  intros Hreq Hsrc Hcomp Htrans. unfold render.
  rewrite Hreq. cbn [mbind Result_bind].
  rewrite Hsrc. cbn [mbind Result_bind].
  rewrite Hcomp. cbn [mbind Result_bind].
  rewrite crop_gate.
  unfold transformed in Htrans. destruct transformation as [t|].
  - rewrite Htrans. reflexivity.
  - injection Htrans as <- <-. reflexivity.
Qed.

(** Every crop offset is the declared buffer or 0. *)
Lemma clamped_offsets (extent bounds_orig : Bounds F) effective_buffer q offset :
  req_left q = offset -> req_right q = offset ->
  req_bottom q = offset -> req_top q = offset ->
  let q' := clamped_per_edge extent bounds_orig effective_buffer q in
  (req_left q' = offset \/ req_left q' = 0)
  /\ (req_right q' = offset \/ req_right q' = 0)
  /\ (req_bottom q' = offset \/ req_bottom q' = 0)
  /\ (req_top q' = offset \/ req_top q' = 0).
Proof.
  intros Hl Hr Hb Ht. unfold clamped_per_edge. simpl.
  repeat split;
    match goal with |- context [if ?x then _ else _] => destruct x end; auto.
Qed.
End RenderCrop.

Lemma render_request_interior_example transformation :
  declared_buffer (F:=R) transformation = 4 ->
  exists resolution_m,
    render_request (F:=R) ((0, 0, 4, 2)%R, WEB_MERCATOR_CRS) (2, 4)
      transformation 0
    = Ok (mkRequest ((0 - of_Z 4 * Rabs ((4 - 0) / of_Z 4))%R,
                     (0 - of_Z 4 * Rabs ((0 - 2) / of_Z 2))%R,
                     (4 + of_Z 4 * Rabs ((4 - 0) / of_Z 4))%R,
                     (2 + of_Z 4 * Rabs ((0 - 2) / of_Z 2))%R)
                    (10, 12) 4 4 4 4, resolution_m).
Proof.
  intros Hdecl.
  destruct (render_request_ok (F:=R) 0%R 0%R 4%R 2%R WEB_MERCATOR_CRS
              2 4 transformation 0 _ ltac:(lia) ltac:(lia)
              get_extent_WEB_MERCATOR)
    as (resolution_m & Hreq).
  exists resolution_m. rewrite Hreq, Hdecl. f_equal. f_equal.
  change (0 + 4) with 4.
  rewrite clamp_to_extent_per_edge, apply_buffer_expanded.
  rewrite clamped_interior; [reflexivity|..];
    unfold exceeds_left, exceeds_right, exceeds_bottom, exceeds_top;
    cbn [expanded_request req_bounds fst snd];
    apply R_ltb_false; R_closed.
Qed.

Lemma render_request_own_buffer_example :
  exists resolution_m,
    render_request (F:=R) ((0, 0, 4, 2)%R, WEB_MERCATOR_CRS) (2, 4) None 4
    = Ok (mkRequest ((0 - of_Z 4 * Rabs ((4 - 0) / of_Z 4))%R,
                     (0 - of_Z 4 * Rabs ((0 - 2) / of_Z 2))%R,
                     (4 + of_Z 4 * Rabs ((4 - 0) / of_Z 4))%R,
                     (2 + of_Z 4 * Rabs ((0 - 2) / of_Z 2))%R)
                    (10, 12) 0 0 0 0, resolution_m).
Proof.
  destruct (render_request_ok (F:=R) 0%R 0%R 4%R 2%R WEB_MERCATOR_CRS
              2 4 None 4 _ ltac:(lia) ltac:(lia)
              get_extent_WEB_MERCATOR)
    as (resolution_m & Hreq).
  exists resolution_m. rewrite Hreq. f_equal. f_equal.
  change (4 + declared_buffer None) with 4.
  change (declared_buffer (F:=R) None) with 0.
  rewrite clamp_to_extent_per_edge, apply_buffer_expanded.
  rewrite clamped_interior; [reflexivity|..];
    unfold exceeds_left, exceeds_right, exceeds_bottom, exceeds_top;
    cbn [expanded_request req_bounds fst snd];
    apply R_ltb_false; R_closed.
Qed.

(** An interior request for 2 rows by 4 columns with an own buffer of 4
    and no transformation: the encoder gets 10 rows by 12 columns, the
    own buffer is not cropped. *)
Example render_own_buffer_oversized :
  render (RenderCollaborators0:=zero_mosaic)
    ((0, 0, 4, 2)%R, WEB_MERCATOR_CRS) (2, 4) WEB_MERCATOR_CRS
    encode_shape None 4
  = Ok ((1, 10, 12), "raw").
Proof.
  destruct render_request_own_buffer_example as [resolution_m Hreq].
  by rewrite (render_crop_gate (RenderCollaborators0:=zero_mosaic)
                _ _ _ _ _ _ _ _ _ _ _ _ _ _ _ Hreq eq_refl eq_refl eq_refl).
Qed.

(** The same request with no own buffer and a transformation that
    declares a buffer of 4 and hands band-first data on: the encoder gets
    the 2 rows by 4 columns asked for. *)
Example render_raw_margin_cropped :
  render (RenderCollaborators0:=zero_mosaic)
    ((0, 0, 4, 2)%R, WEB_MERCATOR_CRS) (2, 4) WEB_MERCATOR_CRS
    encode_shape (Some padded_identity) 0
  = Ok ((1, 2, 4), "raw").
Proof.
  destruct (render_request_interior_example (Some padded_identity) eq_refl)
    as [resolution_m Hreq].
  by rewrite (render_crop_gate (RenderCollaborators0:=zero_mosaic)
                _ _ _ _ _ _ _ _ _ _ _ _ _ _ _ Hreq eq_refl eq_refl eq_refl).
Qed.

(** C4: [render] crops exactly when the transformation declares a
    positive buffer, by offsets that are that buffer or 0; but when the
    transformation returns a channel-last image that is not square, the
    crop it invokes cuts the rows at the width and the columns at the
    height.  For 2 rows by 4 columns and a declared buffer of 4 the
    composite has 10 rows by 12 columns, the image 10 by 12 by 3, and the
    encoder gets 4 rows by 2 columns instead of 2 rows by 4 columns. *)
Theorem render_rgb_margin_swapped :
  render (RenderCollaborators0:=zero_mosaic)
    ((0, 0, 4, 2)%R, WEB_MERCATOR_CRS) (2, 4) WEB_MERCATOR_CRS
    encode_shape (Some padded_rgb) 0
  = Ok ((4, 2, 3), "RGB")
  /\ shape3 (crop_image_words (full3 10 12 3 (0%R, false)) (4, 4, 4, 4))
     = (2, 4, 3).
Proof.
  split; [|reflexivity].
  destruct (render_request_interior_example (Some padded_rgb) eq_refl)
    as [resolution_m Hreq].
  by rewrite (render_crop_gate (RenderCollaborators0:=zero_mosaic)
                _ _ _ _ _ _ _ _ _ _ _ _ _ _ _ Hreq eq_refl eq_refl eq_refl).
Qed.

(** ** The zoom selector *)

Section Zoom.
#[local] Open Scope R_scope.

Lemma PI_lower : 3141592 / 1000000 < PI.
Proof.
  destruct (PI_2_3_7_ineq 2) as [Hlow _].
  apply Rlt_le_trans with (4 * sum_f_R0 (tg_alt PI_2_3_7_tg) (S (2 * 2))); [|lra].
  unfold sum_f_R0, tg_alt, PI_2_3_7_tg, Ratan_seq. simpl. lra.
Qed.

Lemma PI_upper : PI < 3141612 / 1000000.
Proof.
  destruct (PI_2_3_7_ineq 2) as [_ Hup].
  apply Rle_lt_trans with (4 * sum_f_R0 (tg_alt PI_2_3_7_tg) (2 * 2)); [lra|].
  unfold sum_f_R0, tg_alt, PI_2_3_7_tg, Ratan_seq. simpl. lra.
Qed.

Lemma ln_2_pos : 0 < ln 2.
Proof. pose proof ln_lt_2. lra. Qed.

Lemma ln_le (x y : R) : 0 < x -> x <= y -> ln x <= ln y.
Proof.
  intros Hx [Hlt| ->]; [|lra]. left. by apply ln_increasing.
Qed.

Lemma log2_le (x y : R) : 0 < x -> x <= y -> log2 x <= log2 y.
Proof.
  intros Hx Hxy. unfold log2.
  apply Rmult_le_compat_r; [|by apply ln_le].
  left. apply Rinv_0_lt_compat, ln_2_pos.
Qed.

(** The argument of the logarithm falls as the resolution rises. *)
Lemma zoom_ratio_pos (r : R) : 0 < r -> 0 < 2 * PI * 6378137 / (r * 256).
Proof.
  intros Hr. pose proof PI_RGT_0.
  apply Rdiv_lt_0_compat; nra.
Qed.

Lemma zoom_ratio_le (r1 r2 : R) :
  0 < r1 -> r1 <= r2 ->
  2 * PI * 6378137 / (r2 * 256) <= 2 * PI * 6378137 / (r1 * 256).
Proof.
  intros Hr1 Hr12. pose proof PI_RGT_0.
  unfold Rdiv. apply Rmult_le_compat_l; [nra|].
  apply Rinv_le_contravar; nra.
Qed.

Lemma Rtrunc_le (x y : R) : x <= y -> (Rtrunc x <= Rtrunc y)%Z.
Proof.
  intros Hxy. unfold Rtrunc.
  destruct (Rlt_dec x 0) as [Hx|Hx], (Rlt_dec y 0) as [Hy|Hy].
  - by apply Zceil_le.
  - apply Z.le_trans with 0%Z.
    + apply le_IZR. pose proof (Zceil_bound x). apply Rnot_lt_le. intros Hpos.
      assert (1 <= IZR (Zceil x)) by (apply IZR_le; apply lt_IZR in Hpos; lia).
      lra.
    + apply Zfloor_lub. lra.
  - lra.
  - by apply Zfloor_le.
Qed.

Lemma Zceil_nonpos (x : R) : x < 0 -> (Zceil x <= 0)%Z.
Proof.
  intros Hx. pose proof (Zceil_bound x) as [Hlow _].
  apply Z.lt_succ_r, lt_IZR. rewrite succ_IZR. lra.
Qed.

Lemma Rround_le (x y : R) : x <= y -> Rround x <= Rround y.
Proof.
  intros Hxy. unfold Rround.
  destruct (Rlt_dec x 0) as [Hx|Hx], (Rlt_dec y 0) as [Hy|Hy]; apply IZR_le.
  - apply Zceil_le. lra.
  - apply Z.le_trans with 0%Z; [apply Zceil_nonpos; lra|apply Zfloor_lub; lra].
  - lra.
  - apply Zfloor_le. lra.
Qed.

Lemma math_ceil_le (x y : R) : x <= y -> math_ceil x <= math_ceil y.
Proof. intros Hxy. simpl. by apply IZR_le, Zceil_le. Qed.

(** On a positive resolution [get_zoom] returns, and what it returns is
    the zoom of the design document. *)
Lemma get_zoom_words (resolution : R) (op : R -> R) :
  0 < resolution ->
  get_zoom resolution op = Ok (zoom_words resolution op).
Proof.
  intros Hr. unfold get_zoom.
  pose proof (zoom_ratio_pos resolution Hr) as Hratio.
  rewrite R_truediv by (R_ops; lra).
  cbn [mbind Result_bind]. unfold log.
  rewrite !R_ltb_true by (R_ops; lra).
  cbn [mbind Result_bind].
  rewrite R_truediv by (R_ops; pose proof ln_2_pos; lra).
  cbn [mbind Result_bind]. R_ops. reflexivity.
Qed.

Lemma zoom_words_antitone (op : R -> R) (r1 r2 : R) :
  (forall x y, x <= y -> op x <= op y) ->
  0 < r1 -> r1 <= r2 ->
  (zoom_words r2 op <= zoom_words r1 op)%Z.
Proof.
  intros Hop Hr1 Hr12. unfold zoom_words.
  apply Rtrunc_le, Hop, log2_le.
  - apply zoom_ratio_pos. lra.
  - by apply zoom_ratio_le.
Qed.
Lemma reference_resolution_bounds :
  156543 < reference_resolution < 156544.
Proof.
  unfold reference_resolution. pose proof PI_lower. pose proof PI_upper.
  split; lra.
Qed.

Lemma zoom_words_reference : zoom_words reference_resolution round = 0%Z.
Proof.
  unfold zoom_words, reference_resolution, log2.
  replace (2 * PI * 6378137 / (2 * PI * 6378137 / 256 * 256)) with 1
    by (field; apply PI_neq0).
  rewrite ln_1. replace (0 / ln 2) with 0 by (unfold Rdiv; ring).
  simpl. unfold Rround. destruct (Rlt_dec 0 0) as [Hlt|_]; [lra|].
  rewrite (Zfloor_eq 0) by (simpl; lra).
  unfold Rtrunc. destruct (Rlt_dec 0 0) as [Hlt|_]; [lra|].
  apply (ZfloorZ 0).
Qed.

(** C9: on a positive resolution [get_zoom] returns the rounding applied
    to log2(2 pi 6378137 / (resolution * 256)), truncated to an integer;
    under a rounding that is monotone, as [round] and [math.ceil] are,
    the zoom does not rise when the resolution rises; and the zoom of the
    reference resolution 2 pi 6378137 / 256, which lies between 156543
    and 156544 metres per pixel, is 0. *)
Theorem get_zoom_antitone (op : R -> R) (r1 r2 : R) :
  (forall x y, x <= y -> op x <= op y) ->
  0 < r1 -> r1 <= r2 ->
  get_zoom r1 op = Ok (zoom_words r1 op)
  /\ get_zoom r2 op = Ok (zoom_words r2 op)
  /\ (zoom_words r2 op <= zoom_words r1 op)%Z
  /\ get_zoom reference_resolution round = Ok 0%Z
  /\ 156543 < reference_resolution < 156544.
Proof.
  intros Hop Hr1 Hr12.
  split; [apply get_zoom_words; lra|].
  split; [apply get_zoom_words; lra|].
  split; [by apply zoom_words_antitone|].
  split; [|apply reference_resolution_bounds].
  rewrite get_zoom_words by (pose proof reference_resolution_bounds; lra).
  by rewrite zoom_words_reference.
Qed.

(** The two rounding modes the source uses. *)
Corollary get_zoom_round_antitone (r1 r2 : R) :
  0 < r1 -> r1 <= r2 ->
  exists z1 z2,
    get_zoom r1 round = Ok z1 /\ get_zoom r2 round = Ok z2 /\ (z2 <= z1)%Z.
Proof.
  intros Hr1 Hr12. exists (zoom_words r1 round), (zoom_words r2 round).
  split; [apply get_zoom_words; lra|].
  split; [apply get_zoom_words; lra|].
  apply zoom_words_antitone; [apply Rround_le|done..].
Qed.

Corollary get_zoom_ceil_antitone (r1 r2 : R) :
  0 < r1 -> r1 <= r2 ->
  exists z1 z2,
    get_zoom r1 math_ceil = Ok z1 /\ get_zoom r2 math_ceil = Ok z2
    /\ (z2 <= z1)%Z.
Proof.
  intros Hr1 Hr12. exists (zoom_words r1 math_ceil), (zoom_words r2 math_ceil).
  split; [apply get_zoom_words; lra|].
  split; [apply get_zoom_words; lra|].
  apply zoom_words_antitone; [apply math_ceil_le|done..].
Qed.
End Zoom.

Lemma get_zoom_antitone_witness :
  get_zoom 10%R math_ceil = Ok (zoom_words 10 math_ceil)
  /\ get_zoom 20%R math_ceil = Ok (zoom_words 20 math_ceil)
  /\ (zoom_words 20 math_ceil <= zoom_words 10 math_ceil)%Z
  /\ get_zoom reference_resolution round = Ok 0%Z
  /\ (156543 < reference_resolution < 156544)%R.
Proof.
  apply (get_zoom_antitone math_ceil 10 20 math_ceil_le); lra.
Defined.


(** * Further properties *)

(** ** Formats and masks *)

Lemma ascii_upper_idempotent (ch : ascii) :
  ascii_upper (ascii_upper ch) = ascii_upper ch.
Proof.
  destruct ch as [[] [] [] [] [] [] [] []]; reflexivity.
Qed.

Lemma upper_idempotent (s : string) : upper (upper s) = upper s.
Proof.
  induction s as [|ch s IH]; [done|].
  simpl. by rewrite ascii_upper_idempotent, IH.
Qed.

(** X1: [_isimage] looks at the upper-cased format only: a format and its
    upper-casing are classified alike, "rgb" and "Rgba" are image
    formats as "RGB" and "RGBA" are, and a format is an image format
    exactly when its upper-casing is one of these two. *)
Theorem _isimage_case_insensitive (data_format : string) :
  _isimage (upper data_format) = _isimage data_format
  /\ (_isimage data_format = true
      <-> upper data_format = "RGB" \/ upper data_format = "RGBA").
Proof.
  unfold _isimage. rewrite upper_idempotent. split; [done|].
  unfold str_in. simpl. rewrite !orb_true_iff, !String.eqb_eq.
  intuition discriminate.
Qed.

Section MaskFacts.
Context `{MathLib F}.


End MaskFacts.



(** ** More on the crop utility *)

Lemma full3_rectangular {A} (n0 n1 n2 : Z) (x : A) :
  0 <= n0 -> 0 <= n1 -> 0 <= n2 -> rectangular3 (full3 n0 n1 n2 x) n0 n1 n2.
Proof.
  intros Hn0 Hn1 Hn2. unfold full3, full2.
  split; [rewrite repeat_length; lia|].
  apply Forall_forall. intros band ->%list_elem_of_In%repeat_spec.
  split; [rewrite repeat_length; lia|].
  apply Forall_forall. intros row ->%list_elem_of_In%repeat_spec.
  rewrite repeat_length; lia.
Qed.

Section MoreCrop.
Context `{Number F}.

(** X4: on band-first data with no rows or no columns [crop] raises
    [ZeroDivisionError], whatever the offsets are: the transform of the
    uncropped array is computed first. *)
Theorem crop_raw_empty_raises {A} (data : array3 A) (bounds : Bounds F) crs
    data_format offsets :
  _isimage data_format = false ->
  (shape3 data).1.2 = 0 \/ (shape3 data).2 = 0 ->
  crop (data, (bounds, crs)) data_format offsets = Raise ZeroDivisionError.
Proof.
  intros Hfmt Hzero. destruct offsets as [[[l r] b] t].
  destruct bounds as [[[west south] east] north].
  unfold crop. rewrite Hfmt.
  destruct (shape3 data) as [[n height] width]. simpl in Hzero.
  unfold from_bounds, truediv_int.
  destruct (Z.eqb_spec width 0) as [->|Hw]; [reflexivity|].
  destruct Hzero as [->|Hzero]; [reflexivity|done].
Qed.

(** X5: on band-first data of (n, h + 2k, w + 2k) cells [crop] with the
    four offsets at k returns, with bounds and the CRS it was given,
    data of exactly (n, h, w) cells: the band axis is kept and k cells are
    cut off each end of the two spatial axes. *)
Theorem crop_raw_removes_margin {A} (data : array3 A) (bounds : Bounds F) crs
    data_format n h w k :
  _isimage data_format = false ->
  0 < n -> 0 < h -> 0 < w -> 0 <= k ->
  rectangular3 data n (h + 2 * k) (w + 2 * k) ->
  exists cropped cropped_bounds,
    crop (data, (bounds, crs)) data_format (k, k, k, k)
    = Ok (cropped, (Some cropped_bounds, Some crs))
    /\ rectangular3 cropped n h w.
Proof.
  intros Hfmt Hn Hh Hw Hk Hrect.
  pose proof (shape3_rectangular data n (h + 2 * k) (w + 2 * k) Hrect Hn
                ltac:(lia)) as Hshape.
  destruct (crop_raw_slices data bounds crs data_format (k, k, k, k) Hfmt)
    as [cropped_bounds Hcrop]; [rewrite Hshape; simpl; lia..|].
  eexists _, cropped_bounds. split; [exact Hcrop|].
  apply crop_raw_margin; (done || lia).
Qed.
End MoreCrop.

Lemma crop_raw_empty_raises_witness :
  crop (F:=Q) ([[]] : array3 Z, ((0, 0, 1, 1)%Q, WGS84_CRS)) "raw" (0, 0, 0, 0)
  = Raise ZeroDivisionError.
Proof.
  apply (crop_raw_empty_raises (F:=Q)); [reflexivity|left; reflexivity].
Defined.

Lemma crop_raw_removes_margin_witness :
  exists cropped cropped_bounds,
    crop (F:=Q) (full3 2 7 8 5, ((0, 0, 8, 7)%Q, WGS84_CRS)) "raw" (2, 2, 2, 2)
    = Ok (cropped, (Some cropped_bounds, Some WGS84_CRS))
    /\ rectangular3 cropped 2 3 4.
Proof.
  apply (crop_raw_removes_margin (F:=Q) (full3 2 7 8 5) (0, 0, 8, 7)%Q
           WGS84_CRS "raw" 2 3 4 2);
    [reflexivity|lia|lia|lia|lia|].
  apply (full3_rectangular 2 7 8); lia.
Defined.

(** X6: in exact arithmetic [crop] undoes the buffer that [render]
    applies: band-first data of (n, s + 2k, s + 2k) cells over the bounds
    of a square request of s by s pixels buffered by k comes back, cropped
    by k on the four sides, over the bounds of the request itself. *)
Theorem crop_undoes_apply_buffer {A} (data : array3 A)
    (west south east north : R) crs data_format n s k resolution offset :
  _isimage data_format = false ->
  (west < east)%R -> (south < north)%R -> 0 < n -> 0 < s -> 0 <= k ->
  rectangular3 data n (s + 2 * k) (s + 2 * k) ->
  get_resolution ((west, south, east, north), crs) (s, s) = Ok resolution ->
  exists cropped,
    crop (data,
          (req_bounds
             (apply_buffer (west, south, east, north) (s, s) resolution k offset),
           crs))
      data_format (k, k, k, k)
    = Ok (cropped, (Some (west, south, east, north), Some crs))
    /\ rectangular3 cropped n s s.
Proof.
  intros Hfmt Hlr Hbt Hn Hs Hk Hrect Hres.
  rewrite get_resolution_ok in Hres by lia. injection Hres as <-.
  pose proof (shape3_rectangular data n (s + 2 * k) (s + 2 * k) Hrect Hn
                ltac:(lia)) as Hshape.
  pose proof (crop_raw_margin data n s s k Hn Hs ltac:(lia) Hk Hrect) as Hcropped.
  pose proof (shape3_rectangular _ n s s Hcropped Hn Hs) as Hshape'.
  unfold crop_raw_words in Hcropped, Hshape'. rewrite Hshape in Hcropped, Hshape'.
  eexists. split; [|exact Hcropped].
  unfold crop. rewrite Hfmt, Hshape. unfold from_bounds.
  rewrite apply_buffer_expanded. cbn [expanded_request req_bounds].
  rewrite !truediv_int_ok by lia. cbn [mbind Result_bind].
  rewrite Hshape'. unfold windows_bounds, Affine_apply.
  cbn [col_off row_off num_cols num_rows a b c d e f].
  R_ops.
  assert (Hs' : (0 < IZR s)%R) by (apply IZR_lt; lia).
  assert (Hsk : (0 < IZR (s + 2 * k))%R) by (apply IZR_lt; lia).
  assert (Hinv : (0 < / IZR s)%R) by by apply Rinv_0_lt_compat.
  change (Q2R (inject_Z s)) with (of_Z (F:=R) s). rewrite R_of_Z.
  rewrite (Rabs_pos_eq ((east - west) / IZR s)) by (unfold Rdiv; nra).
  rewrite (Rabs_left ((south - north) / IZR s)) by (unfold Rdiv; nra).
  rewrite plus_IZR, mult_IZR in *.
  repeat f_equal; field; lra.
Qed.

Lemma crop_undoes_apply_buffer_witness :
  exists cropped,
    crop (full3 1 6 6 (0%R, false),
          (req_bounds
             (apply_buffer (0, 0, 2, 2)%R (2, 2)
                (abs ((2 - 0) / of_Z 2)%R, abs ((0 - 2) / of_Z 2)%R) 2 2),
           WEB_MERCATOR_CRS))
      "raw" (2, 2, 2, 2)
    = Ok (cropped, (Some (0, 0, 2, 2)%R, Some WEB_MERCATOR_CRS))
    /\ rectangular3 cropped 1 2 2.
Proof.
  apply (crop_undoes_apply_buffer (full3 1 6 6 (0%R, false)) 0 0 2 2
           WEB_MERCATOR_CRS "raw" 1 2 2 _ 2);
    [reflexivity|lra|lra|lia|lia|lia| |reflexivity].
  apply (full3_rectangular 1 6 6); lia.
Defined.

(** ** More on the render orchestrator *)

Section MoreRender.
Context `{MathLib F} `{!RenderCollaborators F}.

(** X7: with a height or a width of zero [render] raises
    [ZeroDivisionError] before anything else happens: no extent is looked
    up (an unregistered CRS makes no difference) and no collaborator is
    called. *)
Theorem render_zero_shape_raises (bounds : Bounds F) crs h w target_crs format
    transformation buffer :
  h = 0 \/ w = 0 ->
  render (bounds, crs) (h, w) target_crs format transformation buffer
  = Raise ZeroDivisionError.
Proof.
  intros Hzero. unfold render. rewrite render_request_unfold.
  by rewrite get_resolution_zero.
Qed.

(** X8: what is left of the shape handed to the mosaic once the four
    crop offsets are taken off is the requested shape plus the own buffer
    on every edge that was not clamped; with no own buffer it is the
    requested shape, wherever the request lies. *)
Theorem render_request_shape_after_offsets (bounds : Bounds F) crs h w
    transformation buffer extent :
  h <> 0 -> w <> 0 ->
  get_extent crs = Ok extent ->
  exists resolution q resolution_m,
    get_resolution (bounds, crs) (h, w) = Ok resolution
    /\ render_request (bounds, crs) (h, w) transformation buffer
       = Ok (q, resolution_m)
    /\ let q0 := apply_buffer bounds (h, w) resolution
                   (buffer + declared_buffer transformation)
                   (declared_buffer transformation) in
       fst (req_shape q) - req_bottom q - req_top q
       = h + (if exceeds_bottom extent q0 then 0 else buffer)
           + (if exceeds_top extent q0 then 0 else buffer)
       /\ snd (req_shape q) - req_left q - req_right q
          = w + (if exceeds_left extent q0 then 0 else buffer)
              + (if exceeds_right extent q0 then 0 else buffer).
Proof.
  intros Hh Hw Hext. destruct bounds as [[[l b] r] t].
  destruct (render_request_ok l b r t crs h w transformation buffer extent
              Hh Hw Hext) as [res_m Hreq].
  eexists _, _, res_m. split; [by apply get_resolution_ok|].
  split; [exact Hreq|].
  rewrite clamp_to_extent_per_edge. unfold clamped_per_edge.
  cbn [req_shape req_left req_right req_bottom req_top fst snd].
  rewrite apply_buffer_expanded.
  cbn [expanded_request req_shape req_left req_right req_bottom req_top fst snd].
  unfold shrink.
  split;
    repeat match goal with |- context [if ?x then _ else _] => destruct x end;
    lia.
Qed.
End MoreRender.

Lemma render_zero_shape_raises_witness :
  render (RenderCollaborators0:=zero_mosaic)
    ((0, 0, 1, 1)%R, mkCRS "+init=epsg:32610" false) (0, 256)
    WEB_MERCATOR_CRS encode_shape None 0
  = Raise ZeroDivisionError.
Proof.
  apply (render_zero_shape_raises (F:=R)). left. reflexivity.
Defined.

Lemma render_request_shape_after_offsets_witness :
  exists resolution q resolution_m,
    get_resolution ((-180, 0, -90, 90)%R, WGS84_CRS) (256, 512) = Ok resolution
    /\ render_request ((-180, 0, -90, 90)%R, WGS84_CRS) (256, 512)
         (Some padded_identity) 0
       = Ok (q, resolution_m)
    /\ let q0 := apply_buffer (-180, 0, -90, 90)%R (256, 512) resolution
                   (0 + declared_buffer (Some padded_identity))
                   (declared_buffer (Some padded_identity)) in
       fst (req_shape q) - req_bottom q - req_top q
       = 256 + (if exceeds_bottom (of_Z (-180), of_Z (-90), of_Z 180, of_Z 90) q0
                then 0 else 0)
             + (if exceeds_top (of_Z (-180), of_Z (-90), of_Z 180, of_Z 90) q0
                then 0 else 0)
       /\ snd (req_shape q) - req_left q - req_right q
          = 512 + (if exceeds_left (of_Z (-180), of_Z (-90), of_Z 180, of_Z 90) q0
                   then 0 else 0)
                + (if exceeds_right (of_Z (-180), of_Z (-90), of_Z 180, of_Z 90) q0
                   then 0 else 0).
Proof.
  exact (render_request_shape_after_offsets (F:=R) (-180, 0, -90, 90)%R
           WGS84_CRS 256 512 (Some padded_identity) 0 _
           ltac:(lia) ltac:(lia) ltac:(reflexivity)).
Defined.

(** The request after clamping, edge by edge, over the reals. *)
Lemma render_request_per_edge_R (l b r t : R) crs h w transformation buffer
    (extent : Bounds R) :
  h <> 0 -> w <> 0 ->
  get_extent crs = Ok extent ->
  exists resolution_m,
    render_request ((l, b, r, t), crs) (h, w) transformation buffer
    = Ok (clamped_per_edge extent (l, b, r, t)
            (buffer + declared_buffer transformation)
            (expanded_request (l, b, r, t) (h, w)
               (Rabs ((r - l) / IZR w), Rabs ((b - t) / IZR h))
               (buffer + declared_buffer transformation)
               (declared_buffer transformation)),
          resolution_m).
Proof.
  intros Hh Hw Hext.
  destruct (render_request_ok l b r t crs h w transformation buffer extent
              Hh Hw Hext) as [res_m Hreq].
  exists res_m. rewrite Hreq, clamp_to_extent_per_edge, apply_buffer_expanded.
  by rewrite !R_of_Z.
Qed.

(** X9: in exact arithmetic [render] with no own buffer and no declared
    buffer hands the mosaic the bounds and the shape it was given, with
    crop offsets 0, also when the request passes the registered extent. *)
Theorem render_request_without_buffer (l b r t : R) crs h w transformation
    (extent : Bounds R) :
  h <> 0 -> w <> 0 ->
  get_extent crs = Ok extent ->
  declared_buffer transformation = 0 ->
  exists resolution_m,
    render_request ((l, b, r, t), crs) (h, w) transformation 0
    = Ok (mkRequest (l, b, r, t) (h, w) 0 0 0 0, resolution_m).
Proof.
  intros Hh Hw Hext Hdecl.
  destruct (render_request_per_edge_R l b r t crs h w transformation 0 extent
              Hh Hw Hext) as [res_m Hreq].
  exists res_m. rewrite Hreq, Hdecl. f_equal. f_equal.
  unfold clamped_per_edge, shrink.
  cbn [expanded_request req_bounds req_shape req_left req_right req_bottom
       req_top fst snd Z.add].
  R_ops. change (0 + 0) with 0.
  replace (l - 0 * Rabs ((r - l) / IZR w))%R with l by ring.
  replace (b - 0 * Rabs ((b - t) / IZR h))%R with b by ring.
  replace (r + 0 * Rabs ((r - l) / IZR w))%R with r by ring.
  replace (t + 0 * Rabs ((b - t) / IZR h))%R with t by ring.
  repeat match goal with |- context [if ?x then _ else _] => destruct x end;
    f_equal; f_equal; lia.
Qed.

Lemma render_request_without_buffer_witness :
  exists resolution_m,
    render_request ((-200, 0, -90, 90)%R, WGS84_CRS) (256, 256) None 0
    = Ok (mkRequest (-200, 0, -90, 90)%R (256, 256) 0 0 0 0, resolution_m).
Proof.
  exact (render_request_without_buffer (-200) 0 (-90) 90 WGS84_CRS 256 256
           None _ ltac:(lia) ltac:(lia) ltac:(reflexivity) eq_refl).
Defined.

(** X10: in exact arithmetic a request that lies inside the registered
    extent is handed to the mosaic with bounds that lie inside the extent
    too, whatever the buffers: no padding past the edge of the world. *)
Theorem render_request_inside_extent (l b r t : R) crs h w transformation
    buffer (e0 e1 e2 e3 : R) :
  h <> 0 -> w <> 0 ->
  get_extent crs = Ok (e0, e1, e2, e3) ->
  (e0 <= l)%R -> (e1 <= b)%R -> (r <= e2)%R -> (t <= e3)%R ->
  exists q resolution_m,
    render_request ((l, b, r, t), crs) (h, w) transformation buffer
    = Ok (q, resolution_m)
    /\ (e0 <= (req_bounds q).1.1.1)%R /\ (e1 <= (req_bounds q).1.1.2)%R
    /\ ((req_bounds q).1.2 <= e2)%R /\ ((req_bounds q).2 <= e3)%R.
Proof.
  intros Hh Hw Hext Hl Hb Hr Ht.
  destruct (render_request_per_edge_R l b r t crs h w transformation buffer _
              Hh Hw Hext) as [res_m Hreq].
  eexists _, res_m. split; [exact Hreq|].
  unfold clamped_per_edge, exceeds_left, exceeds_right, exceeds_bottom,
    exceeds_top.
  cbn [expanded_request req_bounds fst snd].
  R_ops. cbn [ltb R_Number]. unfold Rltb.
  repeat split; cbn [fst snd]; destruct (Rlt_dec _ _); lra.
Qed.

Lemma render_request_inside_extent_witness :
  exists q resolution_m,
    render_request ((-180, 0, -90, 90)%R, WGS84_CRS) (256, 256)
      (Some padded_identity) 3
    = Ok (q, resolution_m)
    /\ (of_Z (-180) <= (req_bounds q).1.1.1)%R
    /\ (of_Z (-90) <= (req_bounds q).1.1.2)%R
    /\ ((req_bounds q).1.2 <= of_Z 180)%R /\ ((req_bounds q).2 <= of_Z 90)%R.
Proof.
  apply (render_request_inside_extent (-180) 0 (-90) 90 WGS84_CRS 256 256
           (Some padded_identity) 3);
    [lia|lia|reflexivity|..]; rewrite R_of_Z; lra.
Defined.

(** X11: in exact arithmetic buffering and clamping keep the pixel size of
    a request with left < right, bottom < top and positive dimensions: the
    bounds handed to the mosaic span the shape handed to it times the
    resolution of the unbuffered request, on both axes. *)
Theorem render_request_keeps_resolution (l b r t : R) crs h w transformation
    buffer (extent : Bounds R) :
  0 < h -> 0 < w -> (l < r)%R -> (b < t)%R ->
  get_extent crs = Ok extent ->
  exists q resolution_m,
    render_request ((l, b, r, t), crs) (h, w) transformation buffer
    = Ok (q, resolution_m)
    /\ ((req_bounds q).1.2 - (req_bounds q).1.1.1
        = (r - l) / IZR w * IZR (snd (req_shape q)))%R
    /\ ((req_bounds q).2 - (req_bounds q).1.1.2
        = (t - b) / IZR h * IZR (fst (req_shape q)))%R.
Proof.
  intros Hh Hw Hlr Hbt Hext.
  destruct (render_request_per_edge_R l b r t crs h w transformation buffer _
              ltac:(lia) ltac:(lia) Hext) as [res_m Hreq].
  eexists _, res_m. split; [exact Hreq|].
  assert (Hh' : (0 < IZR h)%R) by (apply IZR_lt; lia).
  assert (Hw' : (0 < IZR w)%R) by (apply IZR_lt; lia).
  assert (Hih : (0 < / IZR h)%R) by by apply Rinv_0_lt_compat.
  assert (Hiw : (0 < / IZR w)%R) by by apply Rinv_0_lt_compat.
  rewrite (Rabs_pos_eq ((r - l) / IZR w)) by (unfold Rdiv; nra).
  rewrite (Rabs_left ((b - t) / IZR h)) by (unfold Rdiv; nra).
  unfold clamped_per_edge, shrink.
  cbn [expanded_request req_bounds req_shape fst snd].
  R_ops.
  split;
    repeat match goal with |- context [if ?x then _ else _] => destruct x end;
    rewrite ?minus_IZR, ?plus_IZR, ?mult_IZR, ?plus_IZR; field; lra.
Qed.

Lemma render_request_keeps_resolution_witness :
  exists q resolution_m,
    render_request ((-180, 0, -90, 90)%R, WGS84_CRS) (256, 512)
      (Some padded_identity) 3
    = Ok (q, resolution_m)
    /\ ((req_bounds q).1.2 - (req_bounds q).1.1.1
        = (-90 - -180) / IZR 512 * IZR (snd (req_shape q)))%R
    /\ ((req_bounds q).2 - (req_bounds q).1.1.2
        = (90 - 0) / IZR 256 * IZR (fst (req_shape q)))%R.
Proof.
  apply (render_request_keeps_resolution (-180) 0 (-90) 90 WGS84_CRS 256 512
           (Some padded_identity) 3
           (of_Z (-180), of_Z (-90), of_Z 180, of_Z 90));
    [lia|lia|lra|lra|reflexivity].
Defined.

(** ** More on the window planner *)

Lemma read_window_raises_witness :
  let utm := mkCRS "+init=epsg:32610" false in
  destination_grid (RasterAccess0:=constant_raster 1 true) tt
    ((0, 0, 1, 1)%R, utm) (256, 256)
  = Raise (Exception "Unsupported CRS: +init=epsg:32610")
  \/ exists dst,
       destination_grid (RasterAccess0:=constant_raster 1 true) tt
         ((0, 0, 1, 1)%R, utm) (256, 256) = Ok dst
       /\ (@WarpedVRT R _ (constant_raster 1 true) tt
             (@src_nodata R _ (constant_raster 1 true) tt)
             utm dst.1.1 dst.1.2 dst.2
           = Raise (Exception "Unsupported CRS: +init=epsg:32610")
           \/ exists vrt,
                @WarpedVRT R _ (constant_raster 1 true) tt
                  (@src_nodata R _ (constant_raster 1 true) tt)
                  utm dst.1.1 dst.1.2 dst.2 = Ok vrt
                /\ read_data (RasterAccess0:=constant_raster 1 true) vrt
                     (0, 0, 1, 1)%R (256, 256)
                   = Raise (Exception "Unsupported CRS: +init=epsg:32610")).
Proof.
  intros utm.
  apply (read_window_raises (RasterAccess0:=constant_raster 1 true) tt
           (0, 0, 1, 1)%R utm (256, 256)).
  apply (read_window_unregistered (RasterAccess0:=constant_raster 1 true)).
  reflexivity.
Defined.

Section MoreReadWindow.
Context `{MathLib F} `{!RasterAccess F}.

Lemma read_data_zero_dimension vrt (bounds : Bounds F) h w :
  h = 0 \/ w = 0 ->
  exists err, read_data vrt bounds (h, w) = Raise err.
Proof.
  intros Hzero. unfold read_data.
  destruct (vrt_window vrt bounds) as [dst_window|err]; [|by exists err].
  cbn [mbind Result_bind]. unfold truediv_int.
  destruct (Z.eqb_spec w 0) as [->|Hw]; [by eexists|].
  destruct Hzero as [->|Hzero]; [by eexists|done].
Qed.

(** X12: for a target height or width of zero [read_window] never
    returns a window: it raises, in the planning of the grid, at the
    opening of the view or, at the latest, with the division of the
    window by the zero dimension. *)
Theorem read_window_zero_dimension_raises src (bounds : Bounds F) crs h w :
  h = 0 \/ w = 0 ->
  exists err, read_window src (bounds, crs) (h, w) = Raise err.
Proof.
  intros Hzero. unfold read_window.
  destruct (destination_grid _ _ _) as [[[dw dh] dt]|err]; [|by exists err].
  cbn [mbind Result_bind].
  destruct (WarpedVRT _ _ _ _ _ _) as [vrt|err]; [|by exists err].
  cbn [mbind Result_bind].
  destruct (read_data_zero_dimension vrt bounds h w Hzero) as [err Hread].
  exists err. by rewrite Hread.
Qed.

(** X14: for the web-mercator CRS the destination grid depends on the
    source only: whatever bounds and shape are asked for, the same width,
    height and transform are planned. *)
Theorem destination_grid_mercator_ignores_request src
    (bounds bounds' : Bounds F) crs shape shape' :
  CRS_eqb crs WEB_MERCATOR_CRS = true ->
  destination_grid src (bounds, crs) shape
  = destination_grid src (bounds', crs) shape'.
Proof.
  intros Hmercator. unfold destination_grid.
  destruct shape as [h w], shape' as [h' w'].
  destruct (get_extent crs) as [[[[e0 e1] e2] e3]|[]];
    cbn [mbind Result_bind]; try reflexivity.
  by rewrite Hmercator.
Qed.

(** X15: when the source declares no nodata value, no cell of the data
    that is read is masked, on the spline branch and on the direct branch
    alike. *)
Theorem read_data_without_nodata_unmasked vrt (bounds : Bounds F) shape data :
  vrt_nodata vrt = None ->
  read_data vrt bounds shape = Ok data ->
  map3 snd data = map3 (fun _ => false) data.
Proof.
  intros Hnodata Hread. unfold read_data in Hread. destruct shape as [h w].
  rewrite Hnodata in Hread.
  assert (Hflags : forall raw : array3 F,
            map3 snd (astype_float32 (unmasked3 raw))
            = map3 (fun _ => false) (astype_float32 (unmasked3 raw))).
  { intros raw. unfold astype_float32, unmasked3, map3, map2.
    rewrite !map_map. apply map_ext. intros band.
    rewrite !map_map. apply map_ext. intros row.
    rewrite !map_map. by apply map_ext. }
  bind_ok Hread.
  match type of Hread with
  | (if ?spline then _ else _) = _ => destruct spline
  end.
  - bind_ok Hread.
    match type of Hread with
    | context [toranges ?window] => destruct (toranges window) as [r c]
    end.
    bind_ok Hread.
    match type of Hread with
    | context [let '(x, y) := ?xy in _] => destruct xy as [x y]
    end.
    bind_ok Hread. injection Hread as <-.
    match goal with
    | Hcall : Spline_call _ _ _ = Ok ?band |- _ => exact (Hflags [band])
    end.
  - bind_ok Hread. injection Hread as <-.
    match goal with
    | Hcall : vrt_read _ _ _ = Ok ?raw |- _ => exact (Hflags raw)
    end.
Qed.
End MoreReadWindow.

Lemma read_window_zero_dimension_raises_witness :
  exists err,
    read_window (RasterAccess0:=constant_raster 3 true) tt
      ((0, 0, 1, 1)%R, WEB_MERCATOR_CRS) (256, 0)
    = Raise err.
Proof.
  apply (read_window_zero_dimension_raises (F:=R)). right. reflexivity.
Defined.

Lemma destination_grid_mercator_ignores_request_witness :
  destination_grid (RasterAccess0:=constant_raster 3 true) tt
    ((0, 0, 1, 1)%R, WEB_MERCATOR_CRS) (256, 256)
  = destination_grid (RasterAccess0:=constant_raster 3 true) tt
      ((-5, -5, 7, 9)%R, WEB_MERCATOR_CRS) (3, 1000).
Proof.
  apply (destination_grid_mercator_ignores_request (F:=R)). reflexivity.
Defined.

Lemma read_data_without_nodata_unmasked_witness :
  map3 snd (full3 3 32 32 (1%R, false))
  = map3 (fun _ => false) (full3 3 32 32 (1%R, false)).
Proof.
  exact (read_data_without_nodata_unmasked
           (RasterAccess0:=constant_raster 3 true) tt (0, 0, 1, 1)%R (32, 32)
           _ eq_refl (read_data_direct_branch true)).
Defined.

(** ** The companion mask *)

(** X16: a byte of the mask file leaves a cell valid exactly when it is
    255; any other byte, a 1 for instance, masks the cell. *)
Theorem invert_cell_valid_iff_255 (m : Z) :
  0 <= m <= 255 -> (invert_cell m = false <-> m = 255).
Proof.
  intros Hm. unfold invert_cell.
  change 255 with (Z.ones 8) at 1. rewrite Z.land_ones by lia.
  unfold Z.lnot. rewrite negb_false_iff, Z.eqb_eq.
  change (2 ^ 8) with 256.
  pose proof (Z.mod_pos_bound (Z.pred (- m)) 256 ltac:(lia)).
  pose proof (Z.div_mod (Z.pred (- m)) 256 ltac:(lia)).
  split; intros; nia.
Qed.

Lemma invert_cell_valid_iff_255_witness :
  (invert_cell 1 = false <-> 1 = 255) /\ (invert_cell 255 = false <-> 255 = 255).
Proof.
  split; apply invert_cell_valid_iff_255; lia.
Defined.




Section MaskOverride.
Context `{MathLib F} `{!RasterAccess F}.

End MaskOverride.


(** ** The destination grid and the read, over the reals *)

Section GridFacts.
Context `{!RasterAccess R}.

(** X18: outside web mercator, for a request with west < east,
    south < north and positive dimensions, the planned grid is anchored
    at the (left, top) of the registered extent, is north-up without
    rotation, has the resolution of the request, halved when a dimension
    is odd, and covers the extent exactly: width times x-resolution is the
    width of the extent and height times y-resolution its height. *)
Theorem destination_grid_covers_extent src (west south east north : R) crs h w
    (e0 e1 e2 e3 : R) :
  CRS_eqb crs WEB_MERCATOR_CRS = false ->
  get_extent crs = Ok (e0, e1, e2, e3) ->
  0 < h -> 0 < w -> (west < east)%R -> (south < north)%R ->
  let halve := if ((w `mod` 2 =? 1) || (h `mod` 2 =? 1))%bool then 2%R else 1%R in
  exists dst_width dst_height dst_transform,
    destination_grid src ((west, south, east, north), crs) (h, w)
    = Ok (dst_width, dst_height, dst_transform)
    /\ a dst_transform = ((east - west) / IZR w / halve)%R
    /\ e dst_transform = (- ((north - south) / IZR h / halve))%R
    /\ b dst_transform = 0%R /\ d dst_transform = 0%R
    /\ c dst_transform = e0 /\ f dst_transform = e3
    /\ (dst_width * a dst_transform = e2 - e0)%R
    /\ (dst_height * - e dst_transform = e3 - e1)%R.
Proof.
  intros Hmercator Hext Hh Hw Hwe Hsn halve.
  assert (Hh' : (0 < IZR h)%R) by (apply IZR_lt; lia).
  assert (Hw' : (0 < IZR w)%R) by (apply IZR_lt; lia).
  assert (Hih : (0 < / IZR h)%R) by by apply Rinv_0_lt_compat.
  assert (Hiw : (0 < / IZR w)%R) by by apply Rinv_0_lt_compat.
  assert (Hx : Rabs ((east - west) / IZR w) = ((east - west) / IZR w)%R)
    by (apply Rabs_pos_eq; unfold Rdiv; nra).
  assert (Hy : Rabs ((south - north) / IZR h) = ((north - south) / IZR h)%R)
    by (rewrite Rabs_left; unfold Rdiv; nra).
  unfold destination_grid. rewrite Hext. cbn [mbind Result_bind].
  rewrite Hmercator, get_resolution_ok by lia.
  cbn [mbind Result_bind fst snd]. R_ops. rewrite Hx, Hy.
  rewrite R_truediv by (unfold Rdiv; nra). cbn [mbind Result_bind].
  rewrite R_truediv by (unfold Rdiv; nra). cbn [mbind Result_bind].
  subst halve. destruct (_ || _)%bool; eexists _, _, _;
    (split; [reflexivity|]); cbn [a b c d e f fst snd]; R_ops;
    repeat split; try reflexivity; field; lra.
Qed.

(** X19: outside web mercator a request whose bounds have no width or no
    height makes the planning raise [ZeroDivisionError]: its resolution is
    0 and the grid is sized by 1 / resolution. *)
Theorem destination_grid_degenerate_bounds src (west south east north : R) crs
    h w (extent : Bounds R) :
  CRS_eqb crs WEB_MERCATOR_CRS = false ->
  get_extent crs = Ok extent ->
  h <> 0 -> w <> 0 ->
  west = east \/ south = north ->
  destination_grid src ((west, south, east, north), crs) (h, w)
  = Raise ZeroDivisionError.
Proof.
  intros Hmercator Hext Hh Hw Hflat.
  destruct extent as [[[e0 e1] e2] e3].
  unfold destination_grid. rewrite Hext. cbn [mbind Result_bind].
  rewrite Hmercator, get_resolution_ok by lia.
  cbn [mbind Result_bind fst snd]. unfold truediv. R_ops.
  destruct (Req_dec_T (Rabs ((east - west) / IZR w)) 0) as [Hx|Hx].
  - rewrite (R_eqb_true _ _ Hx). reflexivity.
  - rewrite (R_eqb_false _ _ Hx). cbn [mbind Result_bind].
    destruct Hflat as [Hflat|Hflat]; subst.
    + exfalso. apply Hx. unfold Rdiv. rewrite Rminus_diag, Rmult_0_l.
      apply Rabs_R0.
    + rewrite R_eqb_true; [reflexivity|].
      unfold Rdiv. rewrite Rminus_diag, Rmult_0_l. apply Rabs_R0.
Qed.

(** X20: on a source of one band a window with no columns or no rows
    makes the read raise [ZeroDivisionError]: the scale factor is 0, which
    selects the spline branch, and the pixel size is 1 / scale factor. *)
Theorem read_data_empty_window vrt (bounds : Bounds R) h w window :
  vrt_window vrt bounds = Ok window ->
  vrt_count vrt = 1 ->
  0 < h -> 0 < w ->
  num_cols window = 0%R \/ num_rows window = 0%R ->
  read_data vrt bounds (h, w) = Raise ZeroDivisionError.
Proof.
  intros Hwindow Hcount Hh Hw Hempty.
  assert (Hh' : (0 < IZR h)%R) by (apply IZR_lt; lia).
  assert (Hw' : (0 < IZR w)%R) by (apply IZR_lt; lia).
  unfold read_data. rewrite Hwindow. cbn [mbind Result_bind].
  rewrite !truediv_int_ok by lia. cbn [mbind Result_bind].
  rewrite Hcount. cbn [Z.eqb Pos.eqb andb]. R_ops. unfold truediv. R_ops.
  destruct (Req_dec_T (num_cols window / IZR w) 0) as [Hx|Hx].
  - rewrite Hx, (R_ltb_true 0 1) by lra. cbn [orb].
    rewrite (R_eqb_true 0 0) by done. reflexivity.
  - destruct Hempty as [Hcols|Hrows].
    { exfalso. apply Hx. rewrite Hcols. unfold Rdiv. ring. }
    rewrite Hrows.
    replace (0 / IZR h)%R with 0%R by (unfold Rdiv; ring).
    rewrite (R_ltb_true 0 1) by lra. rewrite orb_true_r.
    rewrite (R_eqb_false _ _ Hx). cbn [mbind Result_bind].
    rewrite (R_eqb_true 0 0) by done. reflexivity.
Qed.
End GridFacts.

Lemma destination_grid_covers_extent_witness :
  exists dst_width dst_height dst_transform,
    destination_grid (RasterAccess0:=constant_raster 3 true) tt
      ((0, 0, 1, 1)%R, WGS84_CRS) (255, 256)
    = Ok (dst_width, dst_height, dst_transform)
    /\ a dst_transform = ((1 - 0) / IZR 256 / 2)%R
    /\ e dst_transform = (- ((1 - 0) / IZR 255 / 2))%R
    /\ b dst_transform = 0%R /\ d dst_transform = 0%R
    /\ c dst_transform = of_Z (-180) /\ f dst_transform = of_Z 90
    /\ (dst_width * a dst_transform = of_Z 180 - of_Z (-180))%R
    /\ (dst_height * - e dst_transform = of_Z 90 - of_Z (-90))%R.
Proof.
  apply (destination_grid_covers_extent (RasterAccess0:=constant_raster 3 true)
           tt 0 0 1 1 WGS84_CRS 255 256);
    [reflexivity|reflexivity|lia|lia|lra|lra].
Defined.

Lemma destination_grid_degenerate_bounds_witness :
  destination_grid (RasterAccess0:=constant_raster 3 true) tt
    ((1, 0, 1, 1)%R, WGS84_CRS) (256, 256)
  = Raise ZeroDivisionError.
Proof.
  apply (destination_grid_degenerate_bounds
           (RasterAccess0:=constant_raster 3 true) tt 1 0 1 1 WGS84_CRS 256 256
           (of_Z (-180), of_Z (-90), of_Z 180, of_Z 90));
    [reflexivity|reflexivity|lia|lia|left; reflexivity].
Defined.

Lemma read_data_empty_window_witness :
  read_data (RasterAccess0:=empty_window_raster) tt (0, 0, 1, 1)%R (32, 32)
  = Raise ZeroDivisionError.
Proof.
  apply (read_data_empty_window (RasterAccess0:=empty_window_raster) tt
           (0, 0, 1, 1)%R 32 32 (mkWindow 0%R 0%R 0%R 16%R));
    [reflexivity|reflexivity|lia|lia|left; reflexivity].
Defined.

(** ** More on resolutions and zooms *)

Section MoreZoom.
#[local] Open Scope R_scope.

(** X21: in exact arithmetic the resolutions that [get_resolution]
    returns for nonzero dimensions are not negative and give the extent of
    the bounds back: x-resolution times |width| is |right - left| and
    y-resolution times |height| is |top - bottom|, for bounds in any
    order. *)
Theorem get_resolution_round_trip (l b r t : R) crs (h w : Z) :
  h <> 0%Z -> w <> 0%Z ->
  exists xres yres,
    get_resolution ((l, b, r, t), crs) (h, w) = Ok (xres, yres)
    /\ 0 <= xres /\ 0 <= yres
    /\ xres * Rabs (IZR w) = Rabs (r - l)
    /\ yres * Rabs (IZR h) = Rabs (t - b).
Proof.
  intros Hh Hw. eexists _, _.
  split; [by apply get_resolution_ok|]. R_ops.
  assert (IZR h <> 0) by (apply not_0_IZR; lia).
  assert (IZR w <> 0) by (apply not_0_IZR; lia).
  split; [apply Rabs_pos|]. split; [apply Rabs_pos|].
  rewrite <- !Rabs_mult. split.
  - f_equal. by field.
  - rewrite (Rabs_minus_sym t b). f_equal. by field.
Qed.

(** X22: [get_zoom] of a resolution of 0 raises [ZeroDivisionError], and
    of a negative resolution [ValueError], the logarithm's domain error,
    whatever the rounding is. *)
Theorem get_zoom_errors (resolution : R) (op : R -> R) :
  (resolution = 0 -> get_zoom resolution op = Raise ZeroDivisionError)
  /\ (resolution < 0 -> get_zoom resolution op = Raise ValueError).
Proof.
  split.
  - intros ->. unfold get_zoom, truediv. R_ops.
    rewrite R_eqb_true by ring. reflexivity.
  - intros Hneg. unfold get_zoom. pose proof PI_RGT_0.
    rewrite R_truediv by (R_ops; lra).
    cbn [mbind Result_bind]. unfold log. R_ops.
    rewrite (R_ltb_false 0 (2 * PI * 6378137 / (resolution * 256)));
      [reflexivity|].
    apply Rlt_le. unfold Rdiv.
    assert (/ (resolution * 256) < 0) by (apply Rinv_lt_0_compat; lra).
    nra.
Qed.




End MoreZoom.

Lemma get_resolution_round_trip_witness :
  exists xres yres,
    get_resolution ((0, 0, 4, 2)%R, WEB_MERCATOR_CRS) (2, 4) = Ok (xres, yres)
    /\ (0 <= xres)%R /\ (0 <= yres)%R
    /\ (xres * Rabs (IZR 4) = Rabs (4 - 0))%R
    /\ (yres * Rabs (IZR 2) = Rabs (2 - 0))%R.
Proof.
  apply (get_resolution_round_trip 0 0 4 2 WEB_MERCATOR_CRS 2 4); lia.
Defined.

Lemma get_zoom_errors_witness :
  get_zoom 0%R round = Raise ZeroDivisionError
  /\ get_zoom (-1)%R round = Raise ValueError.
Proof.
  split.
  - exact (proj1 (get_zoom_errors 0 round) eq_refl).
  - apply (proj2 (get_zoom_errors (-1) round)). lra.
Defined.


